(** * The property binder of the view compiler

    A shallow embedding of
    [modules/@angular/compiler/src/view_compiler/property_binder.ts]:
    the pass that turns the bindings of a template (text, element
    properties, directive host properties, directive inputs) into the
    statements of the generated view class.

    The pass only builds syntax.  It appends statements to the methods of
    the view under construction, pushes fields and binding records on it,
    and may abort with an exception.  The embedding therefore has three
    layers:
    - [o]: the output syntax built by the pass;
    - [Gen]: computations over the view under construction, which may throw;
    - the functions of the file, written in [Gen] in the order of the source. *)

From Stdlib Require Import String List ZArith Bool Lia DecimalString DecimalNat.
From Stdlib Require Import FinFun.
Import ListNotations.

Set Warnings "-register-all".

Local Open Scope string_scope.
Local Open Scope list_scope.

(** ** Printing numbers inside template literals *)

(** [`${n}`] for a non-negative integer [n]. *)
Definition string_of_nat (n : nat) : string :=
  NilEmpty.string_of_uint (Nat.to_uint n).

(** [`${z}`] for an integer [z]. *)
Definition string_of_Z (z : Z) : string :=
  NilZero.string_of_int (Z.to_int z).

(** ** Identifiers of the runtime, [Identifiers.X] *)

Module Identifiers.
(** Modelled from the spec: [identifiers.ts] is not among the sources
    verified here.  Only the four identifiers this file resolves are listed;
    [importExpr (resolveIdentifier Identifiers.X)] is the external
    reference [o.ExternalExpr X]. *)
Inductive Identifier : Type :=
| UNINITIALIZED
| checkBinding
| SecurityContext
| setBindingDebugInfo.
End Identifiers.

(** ** The output syntax, [o.*] *)

Module o.

Inductive StmtModifier : Type := Final | Private.

Inductive BinaryOperator : Type := Equals | Or | Plus.

(** The values given to [o.literal] in this file. *)
Inductive LiteralValue : Type :=
| LitNull
| LitBool (b : bool)
| LitString (s : string).

(** Modelled from the spec: [output/output_ast.ts] is not among the
    sources verified here.  The spec calls it the generic imperative-code data
    model and asks for an algebraic expression tree; there is one
    constructor per node the builder methods used by this file create.
    The type arguments, always [null] here, are left out. *)
Inductive Expression : Type :=
| ThisExpr
| ReadVar (name : string)
| ReadProp (receiver : Expression) (name : string)
| ReadKey (receiver : Expression) (index : Expression)
| WriteVarExpr (name : string) (value : Expression)
| WritePropExpr (receiver : Expression) (name : string) (value : Expression)
| InvokeMethodExpr (receiver : Expression) (name : string) (args : list Expression)
| InvokeFunctionExpr (fn : Expression) (args : list Expression)
| ConditionalExpr (condition trueCase falseCase : Expression)
| BinaryOperatorExpr (operator : BinaryOperator) (lhs rhs : Expression)
| LiteralExpr (value : LiteralValue)
| ExternalExpr (value : Identifiers.Identifier).

Inductive Statement : Type :=
| ExpressionStatement (expr : Expression)
| DeclareVarStmt (name : string) (value : Expression) (modifiers : list StmtModifier)
| IfStmt (condition : Expression) (trueCase falseCase : list Statement).

(** [o.ReadVarExpr] and [o.ReadPropExpr], the two expression classes the
    file names in its signatures: it reads their [name] and calls their
    [set]. *)
Record ReadVarExpr : Type := mkReadVarExpr { var_name : string }.
Record ReadPropExpr : Type :=
  mkReadPropExpr { prop_receiver : Expression; prop_name : string }.

Definition ReadVarExpr_expr (v : ReadVarExpr) : Expression :=
  ReadVar (var_name v).
Definition ReadPropExpr_expr (p : ReadPropExpr) : Expression :=
  ReadProp (prop_receiver p) (prop_name p).
Coercion ReadVarExpr_expr : ReadVarExpr >-> Expression.
Coercion ReadPropExpr_expr : ReadPropExpr >-> Expression.

Record ClassField : Type :=
  mkClassField { field_name : string; field_modifiers : list StmtModifier }.

(** The builder. *)
Definition THIS_EXPR : Expression := ThisExpr.
Definition NULL_EXPR : Expression := LiteralExpr LitNull.
Definition variable (name : string) : ReadVarExpr := mkReadVarExpr name.
Definition literal (v : LiteralValue) : Expression := LiteralExpr v.
Definition importExpr (id : Identifiers.Identifier) : Expression := ExternalExpr id.

Definition prop (e : Expression) (name : string) : ReadPropExpr :=
  mkReadPropExpr e name.
Definition key (e index : Expression) : Expression := ReadKey e index.
Definition callMethod (e : Expression) (name : string) (params : list Expression)
  : Expression := InvokeMethodExpr e name params.
Definition callFn (e : Expression) (params : list Expression) : Expression :=
  InvokeFunctionExpr e params.
Definition conditional (e trueCase falseCase : Expression) : Expression :=
  ConditionalExpr e trueCase falseCase.
Definition equals (e rhs : Expression) : Expression :=
  BinaryOperatorExpr Equals e rhs.
Definition or (e rhs : Expression) : Expression := BinaryOperatorExpr Or e rhs.
Definition plus (e rhs : Expression) : Expression := BinaryOperatorExpr Plus e rhs.
Definition isBlank (e : Expression) : Expression := equals e NULL_EXPR.
Definition toStmt (e : Expression) : Statement := ExpressionStatement e.

(** [set] of a variable and of a property read. *)
Definition setVar (v : ReadVarExpr) (value : Expression) : Expression :=
  WriteVarExpr (var_name v) value.
Definition setProp (p : ReadPropExpr) (value : Expression) : Expression :=
  WritePropExpr (prop_receiver p) (prop_name p) value.

(** [v.set(value).toDeclStmt(null, modifiers)]. *)
Definition toDeclStmt (v : ReadVarExpr) (value : Expression)
           (modifiers : list StmtModifier) : Statement :=
  DeclareVarStmt (var_name v) value modifiers.

Definition isIfStmt (s : Statement) : bool :=
  match s with IfStmt _ _ _ => true | _ => false end.

End o.

Import o.

(** ** Constants of the generated code *)

Module DetectChangesVars.
(** Modelled from the spec: [view_compiler/constants.ts] is not among
    the sources verified here; these are the throw-on-change flag and the value
    unwrapper, two local variables of the generated method. *)
Definition throwOnChange : ReadVarExpr := variable "throwOnChange".
Definition valUnwrapper : ReadVarExpr := variable "valUnwrapper".
End DetectChangesVars.

Module ViewProperties.
(** Modelled from the spec: the view utilities, a property of the
    generated view, from the same missing [constants.ts]. *)
Definition viewUtils : ReadPropExpr := prop THIS_EXPR "viewUtils".
End ViewProperties.

(** Modelled from the spec: [EMPTY_STATE] of the core package, the empty
    animation state; the comment at its use calls it [void]. *)
Definition EMPTY_ANIMATION_STATE : string := "void".

Module SecurityContext.
(** Modelled from the spec: the [SecurityContext] enum of the core
    package, whose members are numbers in the order of their
    declaration.  A binding carries such a number, and the selector has
    a [default] case for the numbers that are no member. *)
Definition NONE : Z := 0.
Definition HTML : Z := 1.
Definition STYLE : Z := 2.
Definition SCRIPT : Z := 3.
Definition URL : Z := 4.
Definition RESOURCE_URL : Z := 5.
End SecurityContext.

Inductive PropertyBindingType : Type :=
| Property
| Attribute
| Class
| Style
| Animation.

(** The methods of the view this file writes to.  A [CompileMethod]
    argument of the source is a reference to one of them. *)
Inductive MethodRef : Type :=
| createMethod
| detectChangesInInputsMethod
| detectChangesRenderPropertiesMethod
| animationBindingsMethod
| detachMethod.

(** What a computation ends with: a value, or a thrown [Error]. *)
Inductive Completion (A : Type) : Type :=
| Normal (a : A)
| Throw (message : string).
Arguments Normal {A} a.
Arguments Throw {A} message.

(** [temporaryName] and [temporaryDeclaration] of the expression converter.
    Modelled from the spec: [expression_converter.ts] is not among the
    sources verified here; a temporary is declared by a statement of its own,
    named from the binding index and its number. *)
Definition temporaryName (bindingIndex temporaryNumber : nat) : string :=
  "tmp_" ++ string_of_nat bindingIndex ++ "_" ++ string_of_nat temporaryNumber.

Definition temporaryDeclaration (bindingIndex temporaryNumber : nat) : Statement :=
  DeclareVarStmt (temporaryName bindingIndex temporaryNumber) NULL_EXPR [].

Definition createBindFieldExpr (exprIndex : nat) : ReadPropExpr :=
  prop THIS_EXPR ("_expr_" ++ string_of_nat exprIndex).

Definition createCurrValueExpr (exprIndex : nat) : ReadVarExpr :=
  variable ("currVal_" ++ string_of_nat exprIndex).

Record EvalResult : Type := mkEvalResult { forceUpdate : option Expression }.

(** What [convertCdExpressionToIr] returns. *)
Record ExpressionWithWrappedValueInfo : Type := mkConverted {
  expression : option Expression;
  needsValueUnwrapper : bool;
  temporaryCount : nat
}.

(** What a call of the converter comes to.  Modelled from the spec:
    [expression_converter.ts] is not among the sources verified here.  The
    converter returns an [ExpressionWithWrappedValueInfo]; on the way it asks
    the name resolver, which is the view, for the pipes and the literals of
    the expression, and that pushes fields on the view and statements on its
    create method.  An expression that lowers to nothing (the empty
    expression of the comment in [evalCdAst], a no-op for the spec) has
    nothing to ask the resolver for.  The spec has the converter raise no
    exception on the content of a binding, and so it returns here. *)
Inductive Conversion : Type :=
| NoExpression
| Lowered (value : Expression) (unwraps : bool) (temporaries : nat)
          (resolverFields : list ClassField)
          (resolverCreateStmts : list Statement).

(** The value the converter returns. *)
Definition returned (conversion : Conversion) : ExpressionWithWrappedValueInfo :=
  match conversion with
  | NoExpression => mkConverted None false 0
  | Lowered value unwraps temporaries _ _ =>
      mkConverted (Some value) unwraps temporaries
  end.

(** The fields and the create-method statements its resolver pushed. *)
Definition pushedFields (conversion : Conversion) : list ClassField :=
  match conversion with
  | NoExpression => []
  | Lowered _ _ _ resolverFields _ => resolverFields
  end.

Definition pushedCreateStmts (conversion : Conversion) : list Statement :=
  match conversion with
  | NoExpression => []
  | Lowered _ _ _ _ resolverCreateStmts => resolverCreateStmts
  end.

(** An event listener, as far as this file looks at it. *)
Record CompileEventListener : Type := mkListener {
  isAnimation : bool;
  eventName : string;
  listenToAnimation : ReadVarExpr -> Statement
}.

(** ** The pass, over an arbitrary expression converter *)

Section PropertyBinder.

(** The parsed expressions of the template ([cdAst.AST]) come from the
    expression parser; this file only hands them on.  The change detection
    strategies come from the core package. *)
Context {AST : Type} {ChangeDetectionStrategy : Type}.

(** *** Template syntax read by the pass *)

Record BoundTextAst : Type := mkBoundText { boundText_value : AST }.

Record BoundElementPropertyAst : Type := mkBoundProp {
  boundProp_name : string;
  boundProp_type : PropertyBindingType;
  boundProp_securityContext : Z;
  boundProp_value : AST;
  boundProp_unit : option string
}.

Record BoundDirectivePropertyAst : Type := mkBoundInput {
  input_directiveName : string;
  input_templateName : string;
  input_value : AST
}.

Record CompileDirectiveMetadata : Type := mkDirective {
  isComponent : bool;
  changeDetection : ChangeDetectionStrategy
}.

Record DirectiveAst : Type := mkDirectiveAst {
  directive : CompileDirectiveMetadata;
  inputs : list BoundDirectivePropertyAst;
  hostProperties : list BoundElementPropertyAst
}.

(** The template nodes recorded as the source of a binding or as debug
    information: a bound text, a bound element property, a directive input,
    or the element itself (known here by its name only). *)
Inductive TemplateAst : Type :=
| OfBoundText (boundText : BoundTextAst)
| OfBoundElementProperty (boundProp : BoundElementPropertyAst)
| OfBoundDirectiveProperty (input : BoundDirectivePropertyAst)
| OfElement (name : string).

(** *** The view under construction *)

Record CompileNode : Type := mkNode {
  nodeIndex : nat;
  renderNode : Expression
}.

(** A [CompileElement] is a [CompileNode] with more; its [view] is the
    state of the computation. *)
Record CompileElement : Type := mkElement {
  element_node : CompileNode;
  appElement : Expression;
  sourceAst : TemplateAst
}.

Record CompileBinding : Type := mkCompileBinding {
  binding_node : CompileNode;
  binding_sourceAst : TemplateAst
}.

(** Modelled from the spec: [compile_method.ts] is not among the sources
    verified here.  A method is the ordered list of its statements, to which
    [addStmt] and [addStmts] append, and the debug information last set by
    [resetDebugInfo]. *)
Record CompileMethod : Type := mkMethod {
  bodyStatements : list Statement;
  debugInfo : option (nat * TemplateAst)
}.

(** The parts of a [CompileView] this file reads or writes. *)
Record CompileView : Type := mkView {
  fields : list ClassField;
  bindings : list CompileBinding;
  view_createMethod : CompileMethod;
  view_detectChangesInInputsMethod : CompileMethod;
  view_detectChangesRenderPropertiesMethod : CompileMethod;
  view_animationBindingsMethod : CompileMethod;
  view_detachMethod : CompileMethod;
  componentContext : Expression;
  logBindingUpdate : bool
}.

Definition getMethod (m : MethodRef) (v : CompileView) : CompileMethod :=
  match m with
  | createMethod => view_createMethod v
  | detectChangesInInputsMethod => view_detectChangesInInputsMethod v
  | detectChangesRenderPropertiesMethod => view_detectChangesRenderPropertiesMethod v
  | animationBindingsMethod => view_animationBindingsMethod v
  | detachMethod => view_detachMethod v
  end.

Definition setMethod (m : MethodRef) (c : CompileMethod) (v : CompileView)
  : CompileView :=
  match m with
  | createMethod =>
      mkView (fields v) (bindings v) c (view_detectChangesInInputsMethod v)
             (view_detectChangesRenderPropertiesMethod v)
             (view_animationBindingsMethod v) (view_detachMethod v)
             (componentContext v) (logBindingUpdate v)
  | detectChangesInInputsMethod =>
      mkView (fields v) (bindings v) (view_createMethod v) c
             (view_detectChangesRenderPropertiesMethod v)
             (view_animationBindingsMethod v) (view_detachMethod v)
             (componentContext v) (logBindingUpdate v)
  | detectChangesRenderPropertiesMethod =>
      mkView (fields v) (bindings v) (view_createMethod v)
             (view_detectChangesInInputsMethod v) c
             (view_animationBindingsMethod v) (view_detachMethod v)
             (componentContext v) (logBindingUpdate v)
  | animationBindingsMethod =>
      mkView (fields v) (bindings v) (view_createMethod v)
             (view_detectChangesInInputsMethod v)
             (view_detectChangesRenderPropertiesMethod v) c (view_detachMethod v)
             (componentContext v) (logBindingUpdate v)
  | detachMethod =>
      mkView (fields v) (bindings v) (view_createMethod v)
             (view_detectChangesInInputsMethod v)
             (view_detectChangesRenderPropertiesMethod v)
             (view_animationBindingsMethod v) c
             (componentContext v) (logBindingUpdate v)
  end.

(** The statements of a method of the view. *)
Definition stmts (m : MethodRef) (v : CompileView) : list Statement :=
  bodyStatements (getMethod m v).

(** The three updates of the view the pass is made of. *)
Definition appendStmts (m : MethodRef) (ss : list Statement) (v : CompileView)
  : CompileView :=
  setMethod m (mkMethod (bodyStatements (getMethod m v) ++ ss)
                        (debugInfo (getMethod m v))) v.

Definition appendField (f : ClassField) (v : CompileView) : CompileView :=
  mkView (fields v ++ [f]) (bindings v) (view_createMethod v)
         (view_detectChangesInInputsMethod v)
         (view_detectChangesRenderPropertiesMethod v)
         (view_animationBindingsMethod v) (view_detachMethod v)
         (componentContext v) (logBindingUpdate v).

Definition appendBinding (b : CompileBinding) (v : CompileView) : CompileView :=
  mkView (fields v) (bindings v ++ [b]) (view_createMethod v)
         (view_detectChangesInInputsMethod v)
         (view_detectChangesRenderPropertiesMethod v)
         (view_animationBindingsMethod v) (view_detachMethod v)
         (componentContext v) (logBindingUpdate v).

Definition setDebugInfo (m : MethodRef) (i : nat) (a : TemplateAst)
           (v : CompileView) : CompileView :=
  setMethod m (mkMethod (bodyStatements (getMethod m v)) (Some (i, a))) v.

Definition appendFields (fs : list ClassField) (v : CompileView) : CompileView :=
  mkView (fields v ++ fs) (bindings v) (view_createMethod v)
         (view_detectChangesInInputsMethod v)
         (view_detectChangesRenderPropertiesMethod v)
         (view_animationBindingsMethod v) (view_detachMethod v)
         (componentContext v) (logBindingUpdate v).

(** *** The name resolver and the converter *)

(** The name resolvers handed to the expression converter: the view itself,
    or [new NoLocalsNameResolver(view)].  Either way the converter holds the
    view, as it is at the call. *)
Inductive NameResolver : Type :=
| ViewNameResolver (view : CompileView)
| NoLocalsNameResolver (view : CompileView).

(** [convertCdExpressionToIr nameResolver context ast valUnwrapper bindingIndex]
    is the expression converter, which is not among the sources verified
    here: any function of its arguments, the view of the resolver included.
    [isDefaultChangeDetectionStrategy] is the test of the core package for
    the default strategy. *)
Context (convertCdExpressionToIr :
           NameResolver -> Expression -> AST -> ReadVarExpr -> nat -> Conversion)
        (isDefaultChangeDetectionStrategy : ChangeDetectionStrategy -> bool).

(** The view after the pushes of a conversion. *)
Definition resolved (conversion : Conversion) (v : CompileView) : CompileView :=
  match conversion with
  | NoExpression => v
  | Lowered _ _ _ resolverFields resolverCreateStmts =>
      appendStmts createMethod resolverCreateStmts (appendFields resolverFields v)
  end.

(** *** Computations on the view *)

Definition Gen (A : Type) : Type := CompileView -> Completion A * CompileView.

Definition ret {A : Type} (a : A) : Gen A := fun v => (Normal a, v).

Definition andThen {A B : Type} (c : Gen A) (k : A -> Gen B) : Gen B :=
  fun v =>
    match c v with
    | (Normal a, v') => k a v'
    | (Throw msg, v') => (Throw msg, v')
    end.

(** A pure computation that may throw. *)
Definition lift {A : Type} (r : Completion A) : Gen A := fun v => (r, v).

Notation "x <- c ;; k" := (andThen c (fun x => k))
  (at level 100, c at next level, right associativity).
Notation "c ;;; k" := (andThen c (fun _ => k))
  (at level 100, right associativity).

(** [l.forEach(f)]. *)
Fixpoint forEach {A : Type} (f : A -> Gen unit) (l : list A) : Gen unit :=
  match l with
  | [] => ret tt
  | a :: l' => f a ;;; forEach f l'
  end.

(** [method.addStmt(stmt)], [method.addStmts(stmts)],
    [method.resetDebugInfo(nodeIndex, ast)]. *)
Definition addStmt (m : MethodRef) (s : Statement) : Gen unit :=
  fun v => (Normal tt, appendStmts m [s] v).
Definition addStmts (m : MethodRef) (ss : list Statement) : Gen unit :=
  fun v => (Normal tt, appendStmts m ss v).
Definition resetDebugInfo (m : MethodRef) (i : nat) (a : TemplateAst) : Gen unit :=
  fun v => (Normal tt, setDebugInfo m i a v).

(** [view.fields.push(f)], [view.bindings.push(b)], [view.bindings.length],
    and reading a property of the view. *)
Definition pushField (f : ClassField) : Gen unit :=
  fun v => (Normal tt, appendField f v).
Definition pushBinding (b : CompileBinding) : Gen unit :=
  fun v => (Normal tt, appendBinding b v).
Definition bindingsLength : Gen nat :=
  fun v => (Normal (length (bindings v)), v).
Definition readView {A : Type} (f : CompileView -> A) : Gen A :=
  fun v => (Normal (f v), v).

(** The call of the converter.  A [NameResolver] argument of the source is a
    reference to the view or to its wrapper; here it is the way from the
    view to the resolver, [ViewNameResolver] or [NoLocalsNameResolver], and
    the converter gets the resolver of the view as it is at the call.  Its
    pushes are made on the view; its value is returned. *)
Definition callConverter (nameResolver : CompileView -> NameResolver)
           (context : Expression) (parsedExpression : AST)
           (valUnwrapper : ReadVarExpr) (bindingIndex : nat)
  : Gen ExpressionWithWrappedValueInfo :=
  fun view =>
    let conversion :=
      convertCdExpressionToIr (nameResolver view) context parsedExpression
                              valUnwrapper bindingIndex in
    (Normal (returned conversion), resolved conversion view).

(** *** The functions of the file *)

Definition evalCdAst (currValExpr : ReadVarExpr) (parsedExpression : AST)
           (context : Expression) (nameResolver : CompileView -> NameResolver)
           (method : MethodRef) (bindingIndex : nat) : Gen (option EvalResult) :=
  checkExpression <-
    callConverter nameResolver context parsedExpression
                  DetectChangesVars.valUnwrapper bindingIndex ;;
  match expression checkExpression with
  | None => ret None
  | Some checkExpression_expression =>
      forEach (fun i => addStmt method (temporaryDeclaration bindingIndex i))
              (seq 0 (temporaryCount checkExpression)) ;;;
      (if needsValueUnwrapper checkExpression
       then addStmt method
              (toStmt (callMethod DetectChangesVars.valUnwrapper "reset" []))
       else ret tt) ;;;
      addStmt method (toDeclStmt currValExpr checkExpression_expression [Final]) ;;;
      if needsValueUnwrapper checkExpression
      then ret (Some (mkEvalResult
                  (Some (prop DetectChangesVars.valUnwrapper "hasWrappedValue"
                         : Expression))))
      else ret (Some (mkEvalResult None))
  end.

Definition bind (currValExpr : ReadVarExpr) (fieldExpr : ReadPropExpr)
           (parsedExpression : AST) (context : Expression)
           (nameResolver : CompileView -> NameResolver)
           (actions : list Statement)
           (method : MethodRef) (bindingIndex : nat) : Gen unit :=
  evalResult <- evalCdAst currValExpr parsedExpression context nameResolver
                          method bindingIndex ;;
  match evalResult with
  | None => ret tt
  | Some evalResult =>
      pushField (mkClassField (prop_name fieldExpr) [Private]) ;;;
      addStmt createMethod
        (toStmt (setProp (prop THIS_EXPR (prop_name fieldExpr))
                         (importExpr Identifiers.UNINITIALIZED))) ;;;
      let condition : Expression :=
        callFn (importExpr Identifiers.checkBinding)
               [DetectChangesVars.throwOnChange : Expression;
                fieldExpr : Expression; currValExpr : Expression] in
      let condition : Expression :=
        match forceUpdate evalResult with
        | Some evalResult_forceUpdate => or evalResult_forceUpdate condition
        | None => condition
        end in
      addStmt method
        (IfStmt condition
           (actions ++
            [toStmt (setProp (prop THIS_EXPR (prop_name fieldExpr)) currValExpr)])
           [])
  end.

Definition bindRenderText (boundText : BoundTextAst) (compileNode : CompileNode)
  : Gen unit :=
  bindingIndex <- bindingsLength ;;
  pushBinding (mkCompileBinding compileNode (OfBoundText boundText)) ;;;
  let currValExpr := createCurrValueExpr bindingIndex in
  let valueField := createBindFieldExpr bindingIndex in
  resetDebugInfo detectChangesRenderPropertiesMethod (nodeIndex compileNode)
                 (OfBoundText boundText) ;;;
  view_componentContext <- readView componentContext ;;
  bind currValExpr valueField (boundText_value boundText) view_componentContext
       ViewNameResolver
       [toStmt (callMethod (prop THIS_EXPR "renderer") "setText"
                           [renderNode compileNode; currValExpr : Expression])]
       detectChangesRenderPropertiesMethod bindingIndex.

Definition logBindingUpdateStmt (renderNode : Expression) (propName : string)
           (value : Expression) : Statement :=
  toStmt (callFn (importExpr Identifiers.setBindingDebugInfo)
                 [prop THIS_EXPR "renderer" : Expression; renderNode;
                  literal (LitString propName); value]).

Definition sanitizedValue (boundProp : BoundElementPropertyAst)
           (renderValue : Expression) : Completion Expression :=
  let sanitize (enumValue : string) : Completion Expression :=
    let ctx := prop ViewProperties.viewUtils "sanitizer" in
    let args :=
      [prop (importExpr Identifiers.SecurityContext) enumValue : Expression;
       renderValue] in
    Normal (callMethod ctx "sanitize" args) in
  let securityContext := boundProp_securityContext boundProp in
  if (securityContext =? SecurityContext.NONE)%Z then Normal renderValue
  else if (securityContext =? SecurityContext.HTML)%Z then sanitize "HTML"
  else if (securityContext =? SecurityContext.STYLE)%Z then sanitize "STYLE"
  else if (securityContext =? SecurityContext.SCRIPT)%Z then sanitize "SCRIPT"
  else if (securityContext =? SecurityContext.URL)%Z then sanitize "URL"
  else if (securityContext =? SecurityContext.RESOURCE_URL)%Z
       then sanitize "RESOURCE_URL"
  else Throw ("internal error, unexpected SecurityContext "
              ++ string_of_Z securityContext ++ ".").

(** The callback of [boundProps.forEach] in [bindAndWriteToRenderer]. *)
Definition bindAndWriteToRenderer_boundProp (context : Expression)
           (compileElement : CompileElement) (isHostProp : bool)
           (eventListeners : list CompileEventListener)
           (boundProp : BoundElementPropertyAst) : Gen unit :=
  let renderNode := renderNode (element_node compileElement) in
  bindingIndex <- bindingsLength ;;
  pushBinding (mkCompileBinding (element_node compileElement)
                                (OfBoundElementProperty boundProp)) ;;;
  resetDebugInfo detectChangesRenderPropertiesMethod
                 (nodeIndex (element_node compileElement))
                 (OfBoundElementProperty boundProp) ;;;
  let fieldExpr := createBindFieldExpr bindingIndex in
  let currValExpr := createCurrValueExpr bindingIndex in
  oldRenderValue <- lift (sanitizedValue boundProp fieldExpr) ;;
  renderValue <- lift (sanitizedValue boundProp currValExpr) ;;
  updateStmts_compileMethod <-
    match boundProp_type boundProp with
    | Property =>
        view_logBindingUpdate <- readView logBindingUpdate ;;
        ret ((if view_logBindingUpdate : bool
              then [logBindingUpdateStmt renderNode (boundProp_name boundProp)
                                         renderValue]
              else [])
             ++ [toStmt (callMethod (prop THIS_EXPR "renderer") "setElementProperty"
                           [renderNode; literal (LitString (boundProp_name boundProp));
                            renderValue])],
             detectChangesRenderPropertiesMethod)
    | Attribute =>
        let renderValue :=
          conditional (isBlank renderValue) NULL_EXPR
                      (callMethod renderValue "toString" []) in
        ret ([toStmt (callMethod (prop THIS_EXPR "renderer") "setElementAttribute"
                        [renderNode; literal (LitString (boundProp_name boundProp));
                         renderValue])],
             detectChangesRenderPropertiesMethod)
    | Class =>
        ret ([toStmt (callMethod (prop THIS_EXPR "renderer") "setElementClass"
                        [renderNode; literal (LitString (boundProp_name boundProp));
                         renderValue])],
             detectChangesRenderPropertiesMethod)
    | Style =>
        let strValue := callMethod renderValue "toString" [] in
        let strValue :=
          match boundProp_unit boundProp with
          | Some boundProp_unit => plus strValue (literal (LitString boundProp_unit))
          | None => strValue
          end in
        let renderValue := conditional (isBlank renderValue) NULL_EXPR strValue in
        ret ([toStmt (callMethod (prop THIS_EXPR "renderer") "setElementStyle"
                        [renderNode; literal (LitString (boundProp_name boundProp));
                         renderValue])],
             detectChangesRenderPropertiesMethod)
    | Animation =>
        let animationName := boundProp_name boundProp in
        let targetViewExpr : Expression :=
          if isHostProp
          then prop (appElement compileElement) "componentView" : Expression
          else THIS_EXPR in
        let animationFnExpr :=
          key (prop (prop targetViewExpr "componentType") "animations")
              (literal (LitString animationName)) in
        let emptyStateValue := literal (LitString EMPTY_ANIMATION_STATE) in
        let unitializedValue := importExpr Identifiers.UNINITIALIZED in
        let animationTransitionVar :=
          variable ("animationTransition_" ++ animationName) in
        let updateStmts :=
          [toDeclStmt animationTransitionVar
             (callFn animationFnExpr
                [THIS_EXPR; renderNode;
                 conditional (equals oldRenderValue unitializedValue)
                             emptyStateValue oldRenderValue;
                 conditional (equals renderValue unitializedValue)
                             emptyStateValue renderValue])
             []] in
        let detachStmts :=
          [toDeclStmt animationTransitionVar
             (callFn animationFnExpr
                [THIS_EXPR; renderNode; oldRenderValue; emptyStateValue])
             []] in
        let animationStmts :=
          map (fun listener => listenToAnimation listener animationTransitionVar)
              (filter (fun listener =>
                         isAnimation listener
                         && String.eqb (eventName listener) animationName)
                      eventListeners) in
        addStmts detachMethod (detachStmts ++ animationStmts) ;;;
        ret (updateStmts ++ animationStmts, animationBindingsMethod)
    end ;;
  let '(updateStmts, compileMethod) := updateStmts_compileMethod in
  view_bindings_length <- bindingsLength ;;
  bind currValExpr fieldExpr (boundProp_value boundProp) context
       (if isHostProp then NoLocalsNameResolver else ViewNameResolver)
       updateStmts compileMethod view_bindings_length.

Definition bindAndWriteToRenderer (boundProps : list BoundElementPropertyAst)
           (context : Expression) (compileElement : CompileElement)
           (isHostProp : bool) (eventListeners : list CompileEventListener)
  : Gen unit :=
  forEach (bindAndWriteToRenderer_boundProp context compileElement isHostProp
                                            eventListeners)
          boundProps.

Definition bindRenderInputs (boundProps : list BoundElementPropertyAst)
           (compileElement : CompileElement)
           (eventListeners : list CompileEventListener) : Gen unit :=
  view_componentContext <- readView componentContext ;;
  bindAndWriteToRenderer boundProps view_componentContext compileElement false
                         eventListeners.

Definition bindDirectiveHostProps (directiveAst : DirectiveAst)
           (directiveInstance : Expression) (compileElement : CompileElement)
           (eventListeners : list CompileEventListener) : Gen unit :=
  bindAndWriteToRenderer (hostProperties directiveAst) directiveInstance
                         compileElement true eventListeners.

(** The callback of [directiveAst.inputs.forEach] in [bindDirectiveInputs]. *)
Definition bindDirectiveInputs_input (directiveWrapperInstance : Expression)
           (compileElement : CompileElement) (input : BoundDirectivePropertyAst)
  : Gen unit :=
  bindingIndex <- bindingsLength ;;
  pushBinding (mkCompileBinding (element_node compileElement)
                                (OfBoundDirectiveProperty input)) ;;;
  resetDebugInfo detectChangesInInputsMethod
                 (nodeIndex (element_node compileElement))
                 (OfBoundDirectiveProperty input) ;;;
  let currValExpr := createCurrValueExpr bindingIndex in
  view_componentContext <- readView componentContext ;;
  evalResult <- evalCdAst currValExpr (input_value input) view_componentContext
                          ViewNameResolver detectChangesInInputsMethod
                          bindingIndex ;;
  match evalResult with
  | None => ret tt
  | Some evalResult =>
      addStmt detectChangesInInputsMethod
        (toStmt (callMethod directiveWrapperInstance
                   ("check_" ++ input_directiveName input)
                   [currValExpr : Expression;
                    DetectChangesVars.throwOnChange : Expression;
                    match forceUpdate evalResult with
                    | Some evalResult_forceUpdate => evalResult_forceUpdate
                    | None => literal (LitBool false)
                    end]))
  end.

Definition bindDirectiveInputs (directiveAst : DirectiveAst)
           (directiveWrapperInstance : Expression)
           (compileElement : CompileElement) : Gen unit :=
  resetDebugInfo detectChangesInInputsMethod
                 (nodeIndex (element_node compileElement))
                 (sourceAst compileElement) ;;;
  forEach (bindDirectiveInputs_input directiveWrapperInstance compileElement)
          (inputs directiveAst) ;;;
  let isOnPushComp :=
    isComponent (directive directiveAst)
    && negb (isDefaultChangeDetectionStrategy
               (changeDetection (directive directiveAst))) in
  let directiveDetectChangesExpr :=
    callMethod directiveWrapperInstance "detectChangesInternal"
               [THIS_EXPR; renderNode (element_node compileElement);
                DetectChangesVars.throwOnChange : Expression] in
  let directiveDetectChangesStmt :=
    if isOnPushComp
    then IfStmt directiveDetectChangesExpr
                [toStmt (callMethod (prop (appElement compileElement) "componentView")
                                    "markAsCheckOnce" [])]
                []
    else toStmt directiveDetectChangesExpr in
  addStmt detectChangesInInputsMethod directiveDetectChangesStmt.

(** *** What one binding is expected to leave in a method

    The statements of the theorems below are written with these lists. *)

(** The evaluation of one binding: its temporaries, the reset of the
    unwrapper when it is needed, the declaration of the fresh value. *)
Definition evaluationStmts (currValExpr : ReadVarExpr) (bindingIndex : nat)
           (converted : ExpressionWithWrappedValueInfo)
           (value : Expression) : list Statement :=
  map (temporaryDeclaration bindingIndex) (seq 0 (temporaryCount converted))
  ++ (if needsValueUnwrapper converted
      then [toStmt (callMethod DetectChangesVars.valUnwrapper "reset" [])]
      else [])
  ++ [DeclareVarStmt (var_name currValExpr) value [Final]].

(** The guard of one binding: the comparison of the cached field with the
    fresh value, after the force-update flag when there is one. *)
Definition guardStmt (currValExpr : ReadVarExpr) (fieldExpr : ReadPropExpr)
           (converted : ExpressionWithWrappedValueInfo)
           (actions : list Statement) : Statement :=
  let check :=
    InvokeFunctionExpr (ExternalExpr Identifiers.checkBinding)
      [ReadVar "throwOnChange"; fieldExpr : Expression; currValExpr : Expression] in
  IfStmt (if needsValueUnwrapper converted
          then BinaryOperatorExpr Or
                 (ReadProp (ReadVar "valUnwrapper") "hasWrappedValue") check
          else check)
         (actions ++
          [ExpressionStatement
             (WritePropExpr ThisExpr (prop_name fieldExpr) currValExpr)])
         [].

(** The classifications the selector accepts. *)
Definition knownSecurityContext (boundProp : BoundElementPropertyAst) : bool :=
  existsb (Z.eqb (boundProp_securityContext boundProp))
          [SecurityContext.NONE; SecurityContext.HTML; SecurityContext.STYLE;
           SecurityContext.SCRIPT; SecurityContext.URL;
           SecurityContext.RESOURCE_URL].

(** The method that receives the guard of a bound property. *)
Definition guardMethodOf (boundProp : BoundElementPropertyAst) : MethodRef :=
  match boundProp_type boundProp with
  | Animation => animationBindingsMethod
  | _ => detectChangesRenderPropertiesMethod
  end.

Definition MethodRef_eqb (m m' : MethodRef) : bool :=
  match m, m' with
  | createMethod, createMethod
  | detectChangesInInputsMethod, detectChangesInInputsMethod
  | detectChangesRenderPropertiesMethod, detectChangesRenderPropertiesMethod
  | animationBindingsMethod, animationBindingsMethod
  | detachMethod, detachMethod => true
  | _, _ => false
  end.

(** What bound properties are expected to append to [method], the first
    taking [slot], each coming with its apply statements and with the
    conversion of its expression: for each property in turn, when its
    evaluation is present and its guard belongs to [method], the evaluation
    and then the guard.  The temporaries are named after the index the
    source passes to [bind], which is the number of bindings after the
    registration. *)
Fixpoint guardedBlocks (method : MethodRef) (slot : nat)
         (bound : list (BoundElementPropertyAst * list Statement * Conversion))
  : list Statement :=
  match bound with
  | [] => []
  | (boundProp, actions, conversion) :: rest =>
      (let converted := returned conversion in
       match expression converted with
       | Some value =>
           if MethodRef_eqb (guardMethodOf boundProp) method
           then evaluationStmts (createCurrValueExpr slot) (S slot) converted value
                ++ [guardStmt (createCurrValueExpr slot) (createBindFieldExpr slot)
                              converted actions]
           else []
       | None => []
       end)
      ++ guardedBlocks method (S slot) rest
  end.

(** The slots, counted from [slot], whose conversion gave an expression: the
    ones that get a cached field. *)
Fixpoint cachedSlots (slot : nat) (conversions : list Conversion) : list nat :=
  match conversions with
  | [] => []
  | conversion :: rest =>
      (match expression (returned conversion) with
       | Some _ => [slot]
       | None => []
       end)
      ++ cachedSlots (S slot) rest
  end.

(** The fields and the create-method statements bound properties are
    expected to add, given their conversions: for each in turn what the
    resolver pushed, then the cached field of the slot, or its
    initialization, when the evaluation is present. *)
Fixpoint fieldsOfConversions (slot : nat) (conversions : list Conversion)
  : list ClassField :=
  match conversions with
  | [] => []
  | conversion :: rest =>
      pushedFields conversion
      ++ (match expression (returned conversion) with
          | Some _ => [mkClassField (prop_name (createBindFieldExpr slot)) [Private]]
          | None => []
          end)
      ++ fieldsOfConversions (S slot) rest
  end.

Fixpoint createStmtsOfConversions (slot : nat) (conversions : list Conversion)
  : list Statement :=
  match conversions with
  | [] => []
  | conversion :: rest =>
      pushedCreateStmts conversion
      ++ (match expression (returned conversion) with
          | Some _ =>
              [ExpressionStatement
                 (WritePropExpr ThisExpr (prop_name (createBindFieldExpr slot))
                                (ExternalExpr Identifiers.UNINITIALIZED))]
          | None => []
          end)
      ++ createStmtsOfConversions (S slot) rest
  end.

(** What the inputs of a directive are expected to append to the inputs
    method, the first input taking [slot], each coming with the conversion
    of its expression: for each input whose evaluation is present, the
    evaluation and the call of its check method. *)
Fixpoint inputBlocks (directiveWrapperInstance : Expression) (slot : nat)
         (converted_inputs : list (BoundDirectivePropertyAst * Conversion))
  : list Statement :=
  match converted_inputs with
  | [] => []
  | (input, conversion) :: rest =>
      (let converted := returned conversion in
       match expression converted with
       | Some value =>
           evaluationStmts (createCurrValueExpr slot) slot converted value
           ++ [ExpressionStatement
                 (InvokeMethodExpr directiveWrapperInstance
                    ("check_" ++ input_directiveName input)
                    [createCurrValueExpr slot : Expression;
                     ReadVar "throwOnChange";
                     if needsValueUnwrapper converted
                     then ReadProp (ReadVar "valUnwrapper") "hasWrappedValue"
                     else LiteralExpr (LitBool false)])]
       | None => []
       end)
      ++ inputBlocks directiveWrapperInstance (S slot) rest
  end.

End PropertyBinder.

(** ** The conversions of a run

    The converter sees the view, so what it answers for one binding may
    depend on the bindings before it.  These are the conversions a run over
    a list makes, each at the view its binding has reached. *)

Section Conversions.

Context {AST : Type}
        (convertCdExpressionToIr :
           @NameResolver AST -> Expression -> AST -> ReadVarExpr -> nat ->
           Conversion).

(** The view a bound property has reached when the converter is asked.
    Nothing follows a conversion without expression, so it is the view the
    callback of [bindAndWriteToRenderer] leaves with a converter that never
    lowers anything: the binding is registered, the debug information reset
    and, for an animation, the detach statements appended. *)
Definition beforeConversion (context : Expression)
           (compileElement : CompileElement) (isHostProp : bool)
           (eventListeners : list CompileEventListener)
           (boundProp : BoundElementPropertyAst) (v : @CompileView AST)
  : @CompileView AST :=
  snd (bindAndWriteToRenderer_boundProp
         (fun (_ : @NameResolver AST) _ (_ : AST) _ _ => NoExpression) context
         compileElement isHostProp eventListeners boundProp v).

Fixpoint boundPropConversions (context : Expression)
         (compileElement : CompileElement) (isHostProp : bool)
         (eventListeners : list CompileEventListener)
         (boundProps : list BoundElementPropertyAst) (v : @CompileView AST)
  : list Conversion :=
  match boundProps with
  | [] => []
  | boundProp :: rest =>
      convertCdExpressionToIr
        ((if isHostProp then NoLocalsNameResolver else ViewNameResolver)
           (beforeConversion context compileElement isHostProp eventListeners
                             boundProp v))
        context (boundProp_value boundProp) DetectChangesVars.valUnwrapper
        (S (length (bindings v)))
      :: boundPropConversions context compileElement isHostProp eventListeners
           rest
           (snd (bindAndWriteToRenderer_boundProp convertCdExpressionToIr context
                   compileElement isHostProp eventListeners boundProp v))
  end.

(** The same for the inputs of a directive: an input is converted in the view
    in which its binding is registered and the debug information reset. *)
Fixpoint inputConversions (directiveWrapperInstance : Expression)
         (compileElement : CompileElement)
         (directiveInputs : list BoundDirectivePropertyAst)
         (v : @CompileView AST) : list Conversion :=
  match directiveInputs with
  | [] => []
  | input :: rest =>
      convertCdExpressionToIr
        (ViewNameResolver
           (setDebugInfo detectChangesInInputsMethod
              (nodeIndex (element_node compileElement))
              (OfBoundDirectiveProperty input)
              (appendBinding (mkCompileBinding (element_node compileElement)
                                               (OfBoundDirectiveProperty input))
                             v)))
        (componentContext v) (input_value input) DetectChangesVars.valUnwrapper
        (length (bindings v))
      :: inputConversions directiveWrapperInstance compileElement rest
           (snd (bindDirectiveInputs_input convertCdExpressionToIr
                   directiveWrapperInstance compileElement input v))
  end.

End Conversions.

(** ** A small template, for the examples

    Expressions are kept as their source text.  The converter below knows
    four shapes: the empty expression lowers to nothing; a safe navigation
    on a call needs one temporary; an [async] pipe needs the unwrapper and
    an instance of the pipe, which the resolver pushes on the view as a
    field numbered after the pipes the view has, with its creation in the
    create method; anything else reads a property of the context. *)

Definition viewOf {AST : Type} (nameResolver : @NameResolver AST)
  : @CompileView AST :=
  match nameResolver with
  | ViewNameResolver view => view
  | NoLocalsNameResolver view => view
  end.

Definition samplePipeCount {AST : Type} (view : @CompileView AST) : nat :=
  length (filter (fun f => String.prefix "_pipe_" (field_name f)) (fields view)).

Definition sampleConvert (nameResolver : @NameResolver string)
           (context : Expression) (ast : string) (valUnwrapper : ReadVarExpr)
           (bindingIndex : nat) : Conversion :=
  if String.eqb ast "" then NoExpression
  else if String.eqb ast "getUser()?.name" then
    let tmp := variable (temporaryName bindingIndex 0) in
    Lowered
      (conditional (isBlank (setVar tmp (callMethod context "getUser" [])))
                   NULL_EXPR (prop tmp "name"))
      false 1 [] []
  else if String.eqb ast "items | async" then
    let pipe :=
      prop THIS_EXPR
           ("_pipe_async_" ++ string_of_nat (samplePipeCount (viewOf nameResolver))) in
    Lowered
      (callMethod valUnwrapper "unwrap"
         [callMethod pipe "transform" [prop context "items" : Expression]])
      true 0
      [mkClassField (prop_name pipe) []]
      [toStmt (setProp pipe (callFn (ReadVar "AsyncPipe") []))]
  else Lowered (prop context ast : Expression) false 0 [] [].

Inductive SampleStrategy : Type := SampleOnPush | SampleDefault.

Definition sampleIsDefault (s : SampleStrategy) : bool :=
  match s with SampleDefault => true | SampleOnPush => false end.

Definition sampleView : @CompileView string :=
  mkView [] [] (mkMethod [] None) (mkMethod [] None) (mkMethod [] None)
         (mkMethod [] None) (mkMethod [] None)
         (ReadProp ThisExpr "context") false.

Definition sampleElement : @CompileElement string :=
  mkElement (mkNode 3 (ReadProp ThisExpr "_el_3"))
            (ReadProp ThisExpr "_appEl_3") (OfElement "div").

Definition sampleBoundProp (name : string) (type : PropertyBindingType)
           (securityContext : Z) (value : string) (unit : option string)
  : @BoundElementPropertyAst string :=
  mkBoundProp name type securityContext value unit.

Definition sampleListener : CompileEventListener :=
  mkListener true "fade"
    (fun animationTransition =>
       toStmt (callMethod animationTransition "onDone"
                 [prop THIS_EXPR "_handle_fade_3" : Expression])).

(** The same view with the logging of binding updates switched on. *)
Definition sampleLoggingView : @CompileView string :=
  mkView [] [] (mkMethod [] None) (mkMethod [] None) (mkMethod [] None)
         (mkMethod [] None) (mkMethod [] None)
         (ReadProp ThisExpr "context") true.

(** A converter that only answers to the resolver without locals. *)
Definition sampleConvertWithoutLocals (nameResolver : @NameResolver string)
           (context : Expression) (ast : string) (valUnwrapper : ReadVarExpr)
           (bindingIndex : nat) : Conversion :=
  match nameResolver with
  | NoLocalsNameResolver _ =>
      sampleConvert nameResolver context ast valUnwrapper bindingIndex
  | ViewNameResolver _ => NoExpression
  end.

(** [needle] occurs in [hay]. *)
Definition contains (needle hay : string) : Prop :=
  exists before after : string, hay = (before ++ needle ++ after)%string.

(** ** Properties *)

Section Properties.

Context {AST : Type} {ChangeDetectionStrategy : Type}
        (convertCdExpressionToIr :
           @NameResolver AST -> Expression -> AST -> ReadVarExpr -> nat ->
           Conversion)
        (isDefaultChangeDetectionStrategy : ChangeDetectionStrategy -> bool).

Local Abbreviation View := (@CompileView AST).

(** *** The updates of the view *)

Lemma appendStmts_nil (m : MethodRef) (v : View) : appendStmts m [] v = v.
Proof.
  destruct v as [fs bs [c1 d1] [c2 d2] [c3 d3] [c4 d4] [c5 d5] ctx lg].
  destruct m; unfold appendStmts; simpl; rewrite app_nil_r; reflexivity.
Qed.

Lemma appendStmts_app (m : MethodRef) (a b : list Statement) (v : View) :
  appendStmts m b (appendStmts m a v) = appendStmts m (a ++ b) v.
Proof.
  destruct m; unfold appendStmts; simpl; rewrite <- app_assoc; reflexivity.
Qed.

Lemma stmts_appendStmts_same (m : MethodRef) (ss : list Statement) (v : View) :
  stmts m (appendStmts m ss v) = stmts m v ++ ss.
Proof. destruct m; reflexivity. Qed.

Lemma stmts_appendStmts_other (m m' : MethodRef) (ss : list Statement) (v : View) :
  m <> m' -> stmts m (appendStmts m' ss v) = stmts m v.
Proof. destruct m, m'; intros H; try reflexivity; contradiction H; reflexivity. Qed.

Lemma stmts_appendField (m : MethodRef) (f : ClassField) (v : View) :
  stmts m (appendField f v) = stmts m v.
Proof. destruct m; reflexivity. Qed.

Lemma stmts_appendFields (m : MethodRef) (fs : list ClassField) (v : View) :
  stmts m (appendFields fs v) = stmts m v.
Proof. destruct m; reflexivity. Qed.

Lemma stmts_appendBinding (m : MethodRef) (b : CompileBinding) (v : View) :
  stmts m (appendBinding b v) = stmts m v.
Proof. destruct m; reflexivity. Qed.

Lemma stmts_setDebugInfo (m m' : MethodRef) (i : nat) (a : TemplateAst) (v : View) :
  stmts m (setDebugInfo m' i a v) = stmts m v.
Proof. destruct m, m'; reflexivity. Qed.

Lemma fields_appendStmts (m : MethodRef) (ss : list Statement) (v : View) :
  fields (appendStmts m ss v) = fields v.
Proof. destruct m; reflexivity. Qed.

Lemma fields_setDebugInfo (m : MethodRef) (i : nat) (a : TemplateAst) (v : View) :
  fields (setDebugInfo m i a v) = fields v.
Proof. destruct m; reflexivity. Qed.

Lemma bindings_appendStmts (m : MethodRef) (ss : list Statement) (v : View) :
  bindings (appendStmts m ss v) = bindings v.
Proof. destruct m; reflexivity. Qed.

Lemma bindings_setDebugInfo (m : MethodRef) (i : nat) (a : TemplateAst) (v : View) :
  bindings (setDebugInfo m i a v) = bindings v.
Proof. destruct m; reflexivity. Qed.

Lemma bindings_appendField (f : ClassField) (v : View) :
  bindings (appendField f v) = bindings v.
Proof. reflexivity. Qed.

Lemma bindings_appendBinding (b : CompileBinding) (v : View) :
  bindings (appendBinding b v) = bindings v ++ [b].
Proof. reflexivity. Qed.

Lemma componentContext_appendStmts (m : MethodRef) (ss : list Statement) (v : View) :
  componentContext (appendStmts m ss v) = componentContext v.
Proof. destruct m; reflexivity. Qed.

Lemma componentContext_setDebugInfo (m : MethodRef) (i : nat) (a : TemplateAst)
      (v : View) :
  componentContext (setDebugInfo m i a v) = componentContext v.
Proof. destruct m; reflexivity. Qed.

(** *** The pushes of a conversion *)

Lemma resolved_absent (conversion : Conversion) (v : View) :
  expression (returned conversion) = None -> resolved conversion v = v.
Proof. destruct conversion; [reflexivity | discriminate]. Qed.

Lemma stmts_resolved_create (conversion : Conversion) (v : View) :
  stmts createMethod (resolved conversion v)
  = stmts createMethod v ++ pushedCreateStmts conversion.
Proof. destruct conversion; simpl; [rewrite app_nil_r |]; reflexivity. Qed.

Lemma stmts_resolved_other (m : MethodRef) (conversion : Conversion) (v : View) :
  m <> createMethod -> stmts m (resolved conversion v) = stmts m v.
Proof.
  intros Hm; destruct conversion; [reflexivity |]; unfold resolved.
  rewrite stmts_appendStmts_other by assumption; apply stmts_appendFields.
Qed.

Lemma fields_resolved (conversion : Conversion) (v : View) :
  fields (resolved conversion v) = fields v ++ pushedFields conversion.
Proof. destruct conversion; simpl; [rewrite app_nil_r |]; reflexivity. Qed.

Lemma bindings_resolved (conversion : Conversion) (v : View) :
  bindings (resolved conversion v) = bindings v.
Proof. destruct conversion; reflexivity. Qed.

Lemma componentContext_resolved (conversion : Conversion) (v : View) :
  componentContext (resolved conversion v) = componentContext v.
Proof. destruct conversion; reflexivity. Qed.

(** *** The loop over the temporaries *)

Lemma forEach_addStmt {A : Type} (m : MethodRef) (f : A -> Statement)
      (l : list A) (v : View) :
  forEach (fun a => addStmt m (f a)) l v = (Normal tt, appendStmts m (map f l) v).
Proof.
  revert v; induction l as [| a l IH]; intros v; simpl.
  - unfold ret; rewrite appendStmts_nil; reflexivity.
  - unfold andThen, addStmt; rewrite IH, appendStmts_app; reflexivity.
Qed.

(** *** The evaluator and the guard emitter, as updates of the view *)

Lemma evalCdAst_spec (currValExpr : ReadVarExpr) (parsedExpression : AST)
      (context : Expression) (nameResolver : View -> NameResolver)
      (method : MethodRef) (bindingIndex : nat) (v : View) :
  let conversion :=
    convertCdExpressionToIr (nameResolver v) context parsedExpression
                            DetectChangesVars.valUnwrapper bindingIndex in
  let converted := returned conversion in
  evalCdAst convertCdExpressionToIr currValExpr parsedExpression context
            nameResolver method bindingIndex v
  = match expression converted with
    | None => (Normal None, v)
    | Some value =>
        (Normal (Some (mkEvalResult
                   (if needsValueUnwrapper converted
                    then Some (ReadProp (ReadVar "valUnwrapper") "hasWrappedValue")
                    else None))),
         appendStmts method
           (evaluationStmts currValExpr bindingIndex converted value)
           (resolved conversion v))
    end.
Proof.
  intros conversion converted.
  unfold evalCdAst, callConverter, andThen at 1; fold conversion converted.
  destruct (expression converted) as [value |] eqn:Hvalue.
  - unfold andThen at 1; rewrite forEach_addStmt.
    unfold evaluationStmts, andThen, addStmt, ret.
    destruct (needsValueUnwrapper converted);
      rewrite ?appendStmts_app; reflexivity.
  - unfold ret; rewrite (resolved_absent conversion v Hvalue); reflexivity.
Qed.

Lemma bind_spec (currValExpr : ReadVarExpr) (fieldExpr : ReadPropExpr)
      (parsedExpression : AST) (context : Expression)
      (nameResolver : View -> NameResolver) (actions : list Statement)
      (method : MethodRef) (bindingIndex : nat) (v : View) :
  let conversion :=
    convertCdExpressionToIr (nameResolver v) context parsedExpression
                            DetectChangesVars.valUnwrapper bindingIndex in
  let converted := returned conversion in
  bind convertCdExpressionToIr currValExpr fieldExpr parsedExpression context
       nameResolver actions method bindingIndex v
  = (Normal tt,
     match expression converted with
     | None => v
     | Some value =>
         appendStmts method [guardStmt currValExpr fieldExpr converted actions]
           (appendStmts createMethod
              [ExpressionStatement
                 (WritePropExpr ThisExpr (prop_name fieldExpr)
                                (ExternalExpr Identifiers.UNINITIALIZED))]
              (appendField (mkClassField (prop_name fieldExpr) [Private])
                 (appendStmts method
                    (evaluationStmts currValExpr bindingIndex converted value)
                    (resolved conversion v))))
     end).
Proof.
  intros conversion converted; unfold bind, andThen; rewrite evalCdAst_spec.
  fold conversion converted.
  destruct (expression converted) as [value |]; [| reflexivity].
  unfold guardStmt; destruct (needsValueUnwrapper converted); reflexivity.
Qed.

(** Reading the statements, the fields and the bindings of the view through
    its updates. *)
Ltac stmts_simpl :=
  repeat first
    [ rewrite stmts_appendStmts_same
    | rewrite stmts_appendStmts_other by discriminate
    | rewrite stmts_resolved_create
    | rewrite stmts_resolved_other by discriminate
    | rewrite stmts_appendField
    | rewrite stmts_appendFields
    | rewrite stmts_setDebugInfo
    | rewrite stmts_appendBinding ];
  rewrite <- ?app_assoc, ?app_nil_r.

Ltac fields_simpl :=
  repeat first
    [ rewrite fields_appendStmts
    | rewrite fields_resolved
    | rewrite fields_setDebugInfo
    | progress cbn [fields appendField appendFields appendBinding] ];
  rewrite <- ?app_assoc, ?app_nil_r.

Ltac bindings_simpl :=
  repeat first
    [ rewrite bindings_appendStmts
    | rewrite bindings_resolved
    | rewrite bindings_appendField
    | rewrite bindings_setDebugInfo
    | rewrite bindings_appendBinding ].

(** *** The guard emitter *)

Lemma filter_isIfStmt_evaluationStmts (currValExpr : ReadVarExpr) (bindingIndex : nat)
      (converted : ExpressionWithWrappedValueInfo) (value : Expression) :
  filter isIfStmt (evaluationStmts currValExpr bindingIndex converted value) = [].
Proof.
  unfold evaluationStmts; rewrite !filter_app.
  assert (Htemps : forall l, filter isIfStmt
                               (map (temporaryDeclaration bindingIndex) l) = []).
  { induction l as [| i l IH]; simpl; [reflexivity | exact IH]. }
  rewrite Htemps; destruct (needsValueUnwrapper converted); reflexivity.
Qed.

(** C1. When the evaluation of a binding is present, [bind] adds one private
    field named after the cached field, one statement to the create method
    that sets this field to the uninitialized sentinel, and, after the
    statements of the evaluation (none of which is a conditional), one
    conditional to the target method.  Its condition is the [checkBinding]
    comparison of the throw-on-change flag, the cached field and the fresh
    value, after the force-update flag and an [or] when the flag is present;
    its then-branch is the apply statements followed by the copy of the fresh
    value into the cached field.  The field and its initialization come
    after whatever the resolver pushed for the pipes and literals of the
    expression while it was converted, which is all the fields and the create
    method get besides; nothing else of the view changes. *)
Theorem C1_bind_present_one_field_one_init_one_guard
        (currValExpr : ReadVarExpr) (fieldExpr : ReadPropExpr)
        (parsedExpression : AST) (context : Expression)
        (nameResolver : View -> NameResolver) (actions : list Statement)
        (method : MethodRef) (bindingIndex : nat) (v : View) (value : Expression) :
  let conversion :=
    convertCdExpressionToIr (nameResolver v) context parsedExpression
                            DetectChangesVars.valUnwrapper bindingIndex in
  let converted := returned conversion in
  let result :=
    bind convertCdExpressionToIr currValExpr fieldExpr parsedExpression context
         nameResolver actions method bindingIndex v in
  let check :=
    InvokeFunctionExpr (ExternalExpr Identifiers.checkBinding)
      [ReadVar "throwOnChange"; fieldExpr : Expression; currValExpr : Expression] in
  let condition :=
    if needsValueUnwrapper converted
    then BinaryOperatorExpr Or
           (ReadProp (ReadVar "valUnwrapper") "hasWrappedValue") check
    else check in
  let evaluation := evaluationStmts currValExpr bindingIndex converted value in
  expression converted = Some value ->
  method <> createMethod ->
  fst result = Normal tt
  /\ fields (snd result)
     = fields v ++ pushedFields conversion
       ++ [mkClassField (prop_name fieldExpr) [Private]]
  /\ stmts createMethod (snd result)
     = stmts createMethod v ++ pushedCreateStmts conversion
       ++ [ExpressionStatement
             (WritePropExpr ThisExpr (prop_name fieldExpr)
                            (ExternalExpr Identifiers.UNINITIALIZED))]
  /\ stmts method (snd result)
     = stmts method v ++ evaluation
       ++ [IfStmt condition
             (actions ++
              [ExpressionStatement
                 (WritePropExpr ThisExpr (prop_name fieldExpr) currValExpr)])
             []]
  /\ filter isIfStmt evaluation = []
  /\ (forall m, m <> method -> m <> createMethod ->
                stmts m (snd result) = stmts m v)
  /\ bindings (snd result) = bindings v.
Proof.
  intros conversion converted result check condition evaluation Hvalue Hmethod.
  subst result; rewrite bind_spec; fold conversion converted; rewrite Hvalue.
  cbn [fst snd]; repeat split.
  - fields_simpl; reflexivity.
  - rewrite stmts_appendStmts_other by congruence.
    rewrite stmts_appendStmts_same, stmts_appendField.
    rewrite stmts_appendStmts_other by congruence.
    rewrite stmts_resolved_create, <- app_assoc; reflexivity.
  - rewrite stmts_appendStmts_same.
    rewrite stmts_appendStmts_other by assumption.
    rewrite stmts_appendField, stmts_appendStmts_same.
    rewrite stmts_resolved_other by assumption.
    rewrite <- app_assoc; reflexivity.
  - apply filter_isIfStmt_evaluationStmts.
  - intros m Hm Hcreate.
    rewrite stmts_appendStmts_other by assumption.
    rewrite stmts_appendStmts_other by assumption.
    rewrite stmts_appendField.
    rewrite stmts_appendStmts_other by assumption.
    apply stmts_resolved_other; assumption.
  - bindings_simpl; reflexivity.
Qed.

(** C3. When the expression of a binding lowers to no computation, [bind]
    returns with the view as it found it: no field, no statement in the
    create method, no statement in any method. *)
Theorem C3_bind_absent_emits_nothing
        (currValExpr : ReadVarExpr) (fieldExpr : ReadPropExpr)
        (parsedExpression : AST) (context : Expression)
        (nameResolver : View -> NameResolver) (actions : list Statement)
        (method : MethodRef) (bindingIndex : nat) (v : View) :
  expression
    (returned (convertCdExpressionToIr (nameResolver v) context parsedExpression
                 DetectChangesVars.valUnwrapper bindingIndex)) = None ->
  bind convertCdExpressionToIr currValExpr fieldExpr parsedExpression context
       nameResolver actions method bindingIndex v
  = (Normal tt, v).
Proof.
  intros Habsent; rewrite bind_spec; cbv zeta; rewrite Habsent; reflexivity.
Qed.

(** *** The sanitizer selector *)

(** C4. [sanitizedValue] returns its argument for [NONE]; for each of
    [HTML], [STYLE], [SCRIPT], [URL] and [RESOURCE_URL] it returns the call
    of [sanitize] on the sanitizer of the view utilities, with the member of
    the [SecurityContext] enum of that name and the value; for every other
    classification it throws an error whose message contains
    [unexpected SecurityContext]. *)
Theorem C4_sanitizedValue_by_classification
        (boundProp : @BoundElementPropertyAst AST) (renderValue : Expression) :
  let securityContext := boundProp_securityContext boundProp in
  let sanitize (enumValue : string) : Completion Expression :=
    Normal (InvokeMethodExpr
              (ReadProp (ReadProp ThisExpr "viewUtils") "sanitizer") "sanitize"
              [ReadProp (ExternalExpr Identifiers.SecurityContext) enumValue;
               renderValue]) in
  (securityContext = SecurityContext.NONE ->
   sanitizedValue boundProp renderValue = Normal renderValue)
  /\ (securityContext = SecurityContext.HTML ->
      sanitizedValue boundProp renderValue = sanitize "HTML")
  /\ (securityContext = SecurityContext.STYLE ->
      sanitizedValue boundProp renderValue = sanitize "STYLE")
  /\ (securityContext = SecurityContext.SCRIPT ->
      sanitizedValue boundProp renderValue = sanitize "SCRIPT")
  /\ (securityContext = SecurityContext.URL ->
      sanitizedValue boundProp renderValue = sanitize "URL")
  /\ (securityContext = SecurityContext.RESOURCE_URL ->
      sanitizedValue boundProp renderValue = sanitize "RESOURCE_URL")
  /\ (securityContext <> SecurityContext.NONE ->
      securityContext <> SecurityContext.HTML ->
      securityContext <> SecurityContext.STYLE ->
      securityContext <> SecurityContext.SCRIPT ->
      securityContext <> SecurityContext.URL ->
      securityContext <> SecurityContext.RESOURCE_URL ->
      exists message,
        sanitizedValue boundProp renderValue = Throw message
        /\ message = ("internal error, unexpected SecurityContext "
                      ++ string_of_Z securityContext ++ ".")%string
        /\ contains "unexpected SecurityContext" message).
Proof.
  intros securityContext sanitize; unfold sanitizedValue; fold securityContext.
  repeat split; try (intros ->; reflexivity).
  intros H0 H1 H2 H3 H4 H5.
  apply Z.eqb_neq in H0, H1, H2, H3, H4, H5.
  rewrite H0, H1, H2, H3, H4, H5.
  eexists; split; [reflexivity | split; [reflexivity |]].
  exists "internal error, ", (" " ++ string_of_Z securityContext ++ ".")%string.
  reflexivity.
Qed.

(** *** The directive inputs *)

Lemma forEach_Normal {A : Type} (f : A -> @Gen AST unit) (l : list A) (v : View) :
  (forall a w, fst (f a w) = Normal tt) -> fst (forEach f l v) = Normal tt.
Proof.
  intros Hf; revert v; induction l as [| a l IH]; intros v; simpl.
  - reflexivity.
  - unfold andThen; specialize (Hf a v).
    destruct (f a v) as [[[] | msg] w]; simpl in Hf; [apply IH | discriminate].
Qed.

Lemma bindDirectiveInputs_input_spec (directiveWrapperInstance : Expression)
      (compileElement : CompileElement) (input : BoundDirectivePropertyAst)
      (v : View) :
  let slot := length (bindings v) in
  let currValExpr := createCurrValueExpr slot in
  let registered :=
    setDebugInfo detectChangesInInputsMethod
      (nodeIndex (element_node compileElement)) (OfBoundDirectiveProperty input)
      (appendBinding (mkCompileBinding (element_node compileElement)
                                       (OfBoundDirectiveProperty input)) v) in
  let conversion :=
    convertCdExpressionToIr (ViewNameResolver registered) (componentContext v)
                            (input_value input) DetectChangesVars.valUnwrapper
                            slot in
  let converted := returned conversion in
  bindDirectiveInputs_input convertCdExpressionToIr directiveWrapperInstance
                            compileElement input v
  = (Normal tt,
     match expression converted with
     | None => registered
     | Some value =>
         appendStmts detectChangesInInputsMethod
           (evaluationStmts currValExpr slot converted value
            ++ [ExpressionStatement
                  (InvokeMethodExpr directiveWrapperInstance
                     ("check_" ++ input_directiveName input)
                     [currValExpr : Expression; ReadVar "throwOnChange";
                      if needsValueUnwrapper converted
                      then ReadProp (ReadVar "valUnwrapper") "hasWrappedValue"
                      else LiteralExpr (LitBool false)])])
           (resolved conversion registered)
     end).
Proof.
  intros slot currValExpr registered conversion converted.
  unfold bindDirectiveInputs_input, andThen, bindingsLength, pushBinding,
    resetDebugInfo, readView.
  rewrite evalCdAst_spec; fold slot currValExpr.
  change (componentContext _) with (componentContext v).
  fold registered; fold conversion; fold converted.
  destruct (expression converted) as [value |]; [| reflexivity].
  unfold addStmt; rewrite appendStmts_app.
  destruct (needsValueUnwrapper converted); reflexivity.
Qed.

(** C9. For one directive input, registered at the slot that is the number
    of bindings of the view and converted in the view in which it is
    registered: when its evaluation is present, the inputs method receives
    the statements of the evaluation and then one call of
    [check_<directiveName>] on the wrapper with the fresh value, the
    throw-on-change flag and the force-update flag (the literal [false] when
    there is none); when it is absent, the method receives nothing.  In both
    cases none of the statements added is a conditional, the binder adds no
    field and no statement to the create method (these get what the resolver
    pushed during the conversion and nothing more), the other methods do not
    change, and the binding record is registered. *)
Theorem C9_directive_input_calls_check_without_field_or_guard
        (directiveWrapperInstance : Expression) (compileElement : CompileElement)
        (input : BoundDirectivePropertyAst) (v : View) :
  let slot := length (bindings v) in
  let currValExpr := createCurrValueExpr slot in
  let registered :=
    setDebugInfo detectChangesInInputsMethod
      (nodeIndex (element_node compileElement)) (OfBoundDirectiveProperty input)
      (appendBinding (mkCompileBinding (element_node compileElement)
                                       (OfBoundDirectiveProperty input)) v) in
  let conversion :=
    convertCdExpressionToIr (ViewNameResolver registered) (componentContext v)
                            (input_value input) DetectChangesVars.valUnwrapper
                            slot in
  let converted := returned conversion in
  let result :=
    bindDirectiveInputs_input convertCdExpressionToIr directiveWrapperInstance
                              compileElement input v in
  let added :=
    match expression converted with
    | None => []
    | Some value =>
        evaluationStmts currValExpr slot converted value
        ++ [ExpressionStatement
              (InvokeMethodExpr directiveWrapperInstance
                 ("check_" ++ input_directiveName input)
                 [currValExpr : Expression; ReadVar "throwOnChange";
                  if needsValueUnwrapper converted
                  then ReadProp (ReadVar "valUnwrapper") "hasWrappedValue"
                  else LiteralExpr (LitBool false)])]
    end in
  fst result = Normal tt
  /\ stmts detectChangesInInputsMethod (snd result)
     = stmts detectChangesInInputsMethod v ++ added
  /\ filter isIfStmt added = []
  /\ fields (snd result) = fields v ++ pushedFields conversion
  /\ stmts createMethod (snd result)
     = stmts createMethod v ++ pushedCreateStmts conversion
  /\ (expression converted = None ->
      fields (snd result) = fields v
      /\ stmts createMethod (snd result) = stmts createMethod v)
  /\ (forall m, m <> detectChangesInInputsMethod -> m <> createMethod ->
                stmts m (snd result) = stmts m v)
  /\ bindings (snd result)
     = bindings v ++ [mkCompileBinding (element_node compileElement)
                                       (OfBoundDirectiveProperty input)].
Proof.
  intros slot currValExpr registered conversion converted result added.
  subst result; rewrite bindDirectiveInputs_input_spec.
  fold slot currValExpr registered; fold conversion; fold converted.
  subst added; cbn [fst snd].
  assert (Habsent : expression converted = None ->
                    pushedFields conversion = []
                    /\ pushedCreateStmts conversion = []).
  { subst converted; destruct conversion; [split; reflexivity | discriminate]. }
  destruct (expression converted) as [value |].
  - split; [reflexivity |].
    split; [subst registered; stmts_simpl; reflexivity |].
    split; [rewrite filter_app, filter_isIfStmt_evaluationStmts; reflexivity |].
    split; [subst registered; fields_simpl; reflexivity |].
    split; [subst registered; stmts_simpl; reflexivity |].
    split; [discriminate |].
    split; [| subst registered; bindings_simpl; reflexivity].
    intros m Hm Hcreate.
    rewrite stmts_appendStmts_other by assumption.
    rewrite stmts_resolved_other by assumption.
    subst registered; rewrite stmts_setDebugInfo, stmts_appendBinding.
    reflexivity.
  - destruct (Habsent eq_refl) as [Hfields Hcreate].
    rewrite Hfields, Hcreate, !app_nil_r.
    split; [reflexivity |].
    split; [subst registered; stmts_simpl; reflexivity |].
    split; [reflexivity |].
    split; [subst registered; fields_simpl; reflexivity |].
    split; [subst registered; stmts_simpl; reflexivity |].
    split; [intros _; split; subst registered;
            [fields_simpl | stmts_simpl]; reflexivity |].
    split; [| subst registered; bindings_simpl; reflexivity].
    intros m Hm _; subst registered.
    rewrite stmts_setDebugInfo, stmts_appendBinding; reflexivity.
Qed.

(** C5. After the inputs, [bindDirectiveInputs] appends one statement to the
    inputs method.  For a component whose strategy is not the default one it
    is a conditional on the call of [detectChangesInternal], with the single
    statement [markAsCheckOnce] on the component view of the element as its
    then-branch; otherwise it is that call as a plain statement. *)
Theorem C5_detectChangesInternal_plain_or_guarded
        (directiveAst : DirectiveAst) (directiveWrapperInstance : Expression)
        (compileElement : CompileElement) (v : View) :
  let call :=
    InvokeMethodExpr directiveWrapperInstance "detectChangesInternal"
      [ThisExpr; renderNode (element_node compileElement);
       ReadVar "throwOnChange"] in
  let afterInputs :=
    snd (forEach (bindDirectiveInputs_input convertCdExpressionToIr
                    directiveWrapperInstance compileElement)
                 (inputs directiveAst)
                 (setDebugInfo detectChangesInInputsMethod
                    (nodeIndex (element_node compileElement))
                    (sourceAst compileElement) v)) in
  exists final,
    bindDirectiveInputs convertCdExpressionToIr isDefaultChangeDetectionStrategy
                        directiveAst directiveWrapperInstance compileElement v
    = (Normal tt, appendStmts detectChangesInInputsMethod [final] afterInputs)
    /\ (isComponent (directive directiveAst) = true ->
        isDefaultChangeDetectionStrategy
          (changeDetection (directive directiveAst)) = false ->
        final = IfStmt call
                  [ExpressionStatement
                     (InvokeMethodExpr
                        (ReadProp (appElement compileElement) "componentView")
                        "markAsCheckOnce" [])]
                  [])
    /\ (isComponent (directive directiveAst) = false
        \/ isDefaultChangeDetectionStrategy
             (changeDetection (directive directiveAst)) = true ->
        final = ExpressionStatement call).
Proof.
  intros call afterInputs.
  unfold bindDirectiveInputs, andThen at 1, resetDebugInfo.
  unfold andThen; fold afterInputs.
  pose proof (forEach_Normal
                (bindDirectiveInputs_input convertCdExpressionToIr
                   directiveWrapperInstance compileElement)
                (inputs directiveAst)
                (setDebugInfo detectChangesInInputsMethod
                   (nodeIndex (element_node compileElement))
                   (sourceAst compileElement) v)) as Hnormal.
  subst afterInputs.
  destruct (forEach _ (inputs directiveAst) _) as [[[] | msg] w].
  - unfold addStmt; cbn [snd]; eexists; split; [reflexivity |].
    split.
    + intros -> ->; reflexivity.
    + intros [-> | ->]; [reflexivity |].
      rewrite andb_false_r; reflexivity.
  - assert (Hcontra : fst (@Throw unit msg, w) = Normal tt).
    { apply Hnormal; intros a w'; rewrite bindDirectiveInputs_input_spec;
        reflexivity. }
    discriminate Hcontra.
Qed.

(** *** The render properties *)

(** The start of the callback of [bindAndWriteToRenderer]: the slot is read,
    the binding registered and the debug information reset before anything
    is emitted. *)
Ltac run_boundProp Hold Hnew :=
  unfold bindAndWriteToRenderer_boundProp, andThen, bindingsLength, pushBinding,
    resetDebugInfo, lift, readView, addStmts, ret;
  cbv zeta; rewrite Hold, Hnew.

Lemma length_bindings_registered (m : MethodRef) (i : nat) (a : TemplateAst)
      (b : CompileBinding) (v : View) :
  length (bindings (setDebugInfo m i a (appendBinding b v)))
  = S (length (bindings v)).
Proof.
  rewrite bindings_setDebugInfo; simpl; rewrite length_app; simpl; lia.
Qed.

Lemma logBindingUpdate_registered (m : MethodRef) (i : nat) (a : TemplateAst)
      (b : CompileBinding) (v : View) :
  logBindingUpdate (setDebugInfo m i a (appendBinding b v)) = logBindingUpdate v.
Proof. destruct m; reflexivity. Qed.

(** C7. For an attribute binding, the guarded update calls
    [setElementAttribute] with the null marker when the value is blank and
    its [toString] otherwise; for a style binding it calls [setElementStyle]
    with the null marker when the value is blank and otherwise its
    [toString], to which the unit is added when one is declared.  The
    expression is converted in the view in which the binding is
    registered. *)
Theorem C7_attribute_and_style_values
        (context : Expression) (compileElement : CompileElement)
        (isHostProp : bool) (eventListeners : list CompileEventListener)
        (boundProp : BoundElementPropertyAst) (v : View)
        (oldRenderValue renderValue value : Expression) :
  let slot := length (bindings v) in
  let currValExpr := createCurrValueExpr slot in
  let fieldExpr := createBindFieldExpr slot in
  let registered :=
    setDebugInfo detectChangesRenderPropertiesMethod
      (nodeIndex (element_node compileElement)) (OfBoundElementProperty boundProp)
      (appendBinding (mkCompileBinding (element_node compileElement)
                                       (OfBoundElementProperty boundProp)) v) in
  let converted :=
    returned
      (convertCdExpressionToIr
         ((if isHostProp then NoLocalsNameResolver else ViewNameResolver)
            registered)
         context (boundProp_value boundProp) DetectChangesVars.valUnwrapper
         (S slot)) in
  let result :=
    bindAndWriteToRenderer_boundProp convertCdExpressionToIr context compileElement
                                     isHostProp eventListeners boundProp v in
  let update (method : string) (passed : Expression) : list Statement :=
    [ExpressionStatement
       (InvokeMethodExpr (ReadProp ThisExpr "renderer") method
          [renderNode (element_node compileElement);
           LiteralExpr (LitString (boundProp_name boundProp)); passed])] in
  let stringForm := InvokeMethodExpr renderValue "toString" [] in
  sanitizedValue boundProp fieldExpr = Normal oldRenderValue ->
  sanitizedValue boundProp currValExpr = Normal renderValue ->
  expression converted = Some value ->
  (boundProp_type boundProp = Attribute ->
   stmts detectChangesRenderPropertiesMethod (snd result)
   = stmts detectChangesRenderPropertiesMethod v
     ++ evaluationStmts currValExpr (S slot) converted value
     ++ [guardStmt currValExpr fieldExpr converted
           (update "setElementAttribute"
              (ConditionalExpr (isBlank renderValue) NULL_EXPR stringForm))])
  /\ (boundProp_type boundProp = Style ->
      stmts detectChangesRenderPropertiesMethod (snd result)
      = stmts detectChangesRenderPropertiesMethod v
        ++ evaluationStmts currValExpr (S slot) converted value
        ++ [guardStmt currValExpr fieldExpr converted
              (update "setElementStyle"
                 (ConditionalExpr (isBlank renderValue) NULL_EXPR
                    match boundProp_unit boundProp with
                    | Some unit =>
                        BinaryOperatorExpr Plus stringForm
                                           (LiteralExpr (LitString unit))
                    | None => stringForm
                    end))]).
Proof.
  cbv zeta; intros Hold Hnew Hvalue.
  split; intros Htype.
  - run_boundProp Hold Hnew; rewrite Htype.
    rewrite bind_spec, length_bindings_registered.
    cbv zeta; rewrite Hvalue; cbn [snd].
    stmts_simpl; reflexivity.
  - run_boundProp Hold Hnew; rewrite Htype.
    rewrite bind_spec, length_bindings_registered.
    cbv zeta; rewrite Hvalue; cbn [snd].
    stmts_simpl; destruct (boundProp_unit boundProp); reflexivity.
Qed.

(** *** Slots

    Each of the three binders takes the number of bindings of the view as
    the slot of a binding and registers exactly one record for it, whatever
    happens next. *)

Lemma bindRenderText_spec (boundText : BoundTextAst) (compileNode : CompileNode)
      (v : View) :
  let slot := length (bindings v) in
  bindRenderText convertCdExpressionToIr boundText compileNode v
  = bind convertCdExpressionToIr (createCurrValueExpr slot)
         (createBindFieldExpr slot) (boundText_value boundText)
         (componentContext v) ViewNameResolver
         [ExpressionStatement
            (InvokeMethodExpr (ReadProp ThisExpr "renderer") "setText"
               [renderNode compileNode; createCurrValueExpr slot : Expression])]
         detectChangesRenderPropertiesMethod slot
         (setDebugInfo detectChangesRenderPropertiesMethod (nodeIndex compileNode)
            (OfBoundText boundText)
            (appendBinding (mkCompileBinding compileNode (OfBoundText boundText))
                           v)).
Proof. reflexivity. Qed.

Lemma bindRenderText_registers (boundText : BoundTextAst)
      (compileNode : CompileNode) (v : View) :
  bindings (snd (bindRenderText convertCdExpressionToIr boundText compileNode v))
  = bindings v ++ [mkCompileBinding compileNode (OfBoundText boundText)].
Proof.
  rewrite bindRenderText_spec; cbv zeta; rewrite bind_spec; cbn [snd].
  destruct (expression _); bindings_simpl; reflexivity.
Qed.

Lemma boundProp_registers
      (context : Expression) (compileElement : CompileElement)
      (isHostProp : bool) (eventListeners : list CompileEventListener)
      (boundProp : BoundElementPropertyAst) (v : View) :
  bindings (snd (bindAndWriteToRenderer_boundProp convertCdExpressionToIr context
                   compileElement isHostProp eventListeners boundProp v))
  = bindings v ++ [mkCompileBinding (element_node compileElement)
                                    (OfBoundElementProperty boundProp)].
Proof.
  unfold bindAndWriteToRenderer_boundProp, andThen, bindingsLength, pushBinding,
    resetDebugInfo, lift, readView, addStmts, ret; cbv zeta.
  destruct (sanitizedValue boundProp (createBindFieldExpr _));
    [| bindings_simpl; reflexivity].
  destruct (sanitizedValue boundProp (createCurrValueExpr _));
    [| bindings_simpl; reflexivity].
  destruct (boundProp_type boundProp);
    rewrite bind_spec; cbn [snd];
    destruct (expression _); bindings_simpl; reflexivity.
Qed.

(** *** Animations *)

(** What [bindAndWriteToRenderer] leaves in the three methods for an
    animation binding.  Its expression is converted after the detach
    statements are appended. *)
Lemma animation_boundProp_spec
      (context : Expression) (compileElement : CompileElement)
      (isHostProp : bool) (eventListeners : list CompileEventListener)
      (boundProp : BoundElementPropertyAst) (v : View)
      (oldRenderValue renderValue : Expression) :
  let slot := length (bindings v) in
  let currValExpr := createCurrValueExpr slot in
  let fieldExpr := createBindFieldExpr slot in
  let result :=
    bindAndWriteToRenderer_boundProp convertCdExpressionToIr context compileElement
                                     isHostProp eventListeners boundProp v in
  let target :=
    if isHostProp then ReadProp (appElement compileElement) "componentView"
    else ThisExpr in
  let animationFn :=
    ReadKey (ReadProp (ReadProp target "componentType") "animations")
            (LiteralExpr (LitString (boundProp_name boundProp))) in
  let transition := ("animationTransition_" ++ boundProp_name boundProp)%string in
  let emptyState := LiteralExpr (LitString EMPTY_ANIMATION_STATE) in
  let normalized (e : Expression) :=
    ConditionalExpr
      (BinaryOperatorExpr Equals e (ExternalExpr Identifiers.UNINITIALIZED))
      emptyState e in
  let listened :=
    map (fun listener => listenToAnimation listener (mkReadVarExpr transition))
        (filter (fun listener =>
                   isAnimation listener
                   && String.eqb (eventName listener) (boundProp_name boundProp))
                eventListeners) in
  let detached :=
    DeclareVarStmt transition
      (InvokeFunctionExpr animationFn
         [ThisExpr; renderNode (element_node compileElement);
          oldRenderValue; emptyState])
      []
    :: listened in
  let registered :=
    setDebugInfo detectChangesRenderPropertiesMethod
      (nodeIndex (element_node compileElement)) (OfBoundElementProperty boundProp)
      (appendBinding (mkCompileBinding (element_node compileElement)
                                       (OfBoundElementProperty boundProp)) v) in
  let converted :=
    returned
      (convertCdExpressionToIr
         ((if isHostProp then NoLocalsNameResolver else ViewNameResolver)
            (appendStmts detachMethod detached registered))
         context (boundProp_value boundProp) DetectChangesVars.valUnwrapper
         (S slot)) in
  boundProp_type boundProp = Animation ->
  sanitizedValue boundProp fieldExpr = Normal oldRenderValue ->
  sanitizedValue boundProp currValExpr = Normal renderValue ->
  fst result = Normal tt
  /\ stmts detachMethod (snd result) = stmts detachMethod v ++ detached
  /\ stmts animationBindingsMethod (snd result)
     = stmts animationBindingsMethod v
       ++ match expression converted with
          | None => []
          | Some value =>
              evaluationStmts currValExpr (S slot) converted value
              ++ [guardStmt currValExpr fieldExpr converted
                    (DeclareVarStmt transition
                       (InvokeFunctionExpr animationFn
                          [ThisExpr; renderNode (element_node compileElement);
                           normalized oldRenderValue; normalized renderValue])
                       []
                     :: listened)]
          end
  /\ stmts detectChangesRenderPropertiesMethod (snd result)
     = stmts detectChangesRenderPropertiesMethod v.
Proof.
  cbv zeta; intros Htype Hold Hnew.
  run_boundProp Hold Hnew; rewrite Htype.
  rewrite bind_spec, bindings_appendStmts, length_bindings_registered.
  cbv zeta; cbn [fst snd].
  match goal with
  | |- context [returned (convertCdExpressionToIr ?r ?a ?b ?c ?d)] =>
      set (conversion := convertCdExpressionToIr r a b c d)
  end.
  match goal with
  | |- context [returned (convertCdExpressionToIr ?r ?a ?b ?c ?d)] =>
      change (convertCdExpressionToIr r a b c d) with conversion
  end.
  destruct (expression (returned conversion)) as [value |];
    repeat split; stmts_simpl; reflexivity.
Qed.

(** C6. For an animation binding: the transition of the update path calls
    the animation function with the old and the fresh value, each inside a
    conditional that yields the empty animation state when the value equals
    the uninitialized sentinel and the value itself otherwise; the guard that
    holds it goes to the animation bindings method, and only when the
    evaluation is present.  The transition of the detach path is appended to
    the detach method in every case and calls the function with the old value
    as it is and the empty animation state.  The main change detection method
    receives nothing.  The expression is converted in the view in which the
    binding is registered and the detach statements appended. *)
Theorem C6_animation_transitions
        (context : Expression) (compileElement : CompileElement)
        (isHostProp : bool) (eventListeners : list CompileEventListener)
        (boundProp : BoundElementPropertyAst) (v : View)
        (oldRenderValue renderValue : Expression) :
  let slot := length (bindings v) in
  let currValExpr := createCurrValueExpr slot in
  let fieldExpr := createBindFieldExpr slot in
  let result :=
    bindAndWriteToRenderer_boundProp convertCdExpressionToIr context compileElement
                                     isHostProp eventListeners boundProp v in
  let animationFn :=
    ReadKey (ReadProp (ReadProp (if isHostProp
                                 then ReadProp (appElement compileElement)
                                               "componentView"
                                 else ThisExpr)
                                "componentType") "animations")
            (LiteralExpr (LitString (boundProp_name boundProp))) in
  let transition := ("animationTransition_" ++ boundProp_name boundProp)%string in
  let emptyState := LiteralExpr (LitString EMPTY_ANIMATION_STATE) in
  let uninitialized := ExternalExpr Identifiers.UNINITIALIZED in
  let listened :=
    map (fun listener => listenToAnimation listener (mkReadVarExpr transition))
        (filter (fun listener =>
                   isAnimation listener
                   && String.eqb (eventName listener) (boundProp_name boundProp))
                eventListeners) in
  let detached :=
    DeclareVarStmt transition
      (InvokeFunctionExpr animationFn
         [ThisExpr; renderNode (element_node compileElement);
          oldRenderValue; emptyState])
      []
    :: listened in
  let registered :=
    setDebugInfo detectChangesRenderPropertiesMethod
      (nodeIndex (element_node compileElement)) (OfBoundElementProperty boundProp)
      (appendBinding (mkCompileBinding (element_node compileElement)
                                       (OfBoundElementProperty boundProp)) v) in
  let converted :=
    returned
      (convertCdExpressionToIr
         ((if isHostProp then NoLocalsNameResolver else ViewNameResolver)
            (appendStmts detachMethod detached registered))
         context (boundProp_value boundProp) DetectChangesVars.valUnwrapper
         (S slot)) in
  boundProp_type boundProp = Animation ->
  sanitizedValue boundProp fieldExpr = Normal oldRenderValue ->
  sanitizedValue boundProp currValExpr = Normal renderValue ->
  stmts animationBindingsMethod (snd result)
  = stmts animationBindingsMethod v
    ++ match expression converted with
       | None => []
       | Some value =>
           evaluationStmts currValExpr (S slot) converted value
           ++ [guardStmt currValExpr fieldExpr converted
                 (DeclareVarStmt transition
                    (InvokeFunctionExpr animationFn
                       [ThisExpr; renderNode (element_node compileElement);
                        ConditionalExpr
                          (BinaryOperatorExpr Equals oldRenderValue uninitialized)
                          emptyState oldRenderValue;
                        ConditionalExpr
                          (BinaryOperatorExpr Equals renderValue uninitialized)
                          emptyState renderValue])
                    []
                  :: listened)]
       end
  /\ stmts detachMethod (snd result)
     = stmts detachMethod v
       ++ DeclareVarStmt transition
            (InvokeFunctionExpr animationFn
               [ThisExpr; renderNode (element_node compileElement);
                oldRenderValue; emptyState])
            []
          :: listened
  /\ stmts detectChangesRenderPropertiesMethod (snd result)
     = stmts detectChangesRenderPropertiesMethod v.
Proof.
  cbv zeta; intros Htype Hold Hnew.
  destruct (animation_boundProp_spec context compileElement isHostProp
              eventListeners boundProp v oldRenderValue renderValue
              Htype Hold Hnew) as (_ & Hdetach & Hanimation & Hrender).
  repeat split; assumption.
Qed.

(** C10. The animation function of an animation binding is the entry of its
    name in [componentType.animations] of a view: the component view of the
    element for a host property of a directive, the view being generated for
    a binding of the template. *)
Theorem C10_animation_function_view
        (context : Expression) (compileElement : CompileElement)
        (isHostProp : bool) (eventListeners : list CompileEventListener)
        (boundProp : BoundElementPropertyAst) (v : View)
        (oldRenderValue renderValue value : Expression) :
  let slot := length (bindings v) in
  let currValExpr := createCurrValueExpr slot in
  let fieldExpr := createBindFieldExpr slot in
  let animationFnOf (view : Expression) :=
    ReadKey (ReadProp (ReadProp view "componentType") "animations")
            (LiteralExpr (LitString (boundProp_name boundProp))) in
  let transition := ("animationTransition_" ++ boundProp_name boundProp)%string in
  let detached :=
    DeclareVarStmt transition
      (InvokeFunctionExpr
         (animationFnOf (if isHostProp
                         then ReadProp (appElement compileElement) "componentView"
                         else ThisExpr))
         [ThisExpr; renderNode (element_node compileElement); oldRenderValue;
          LiteralExpr (LitString EMPTY_ANIMATION_STATE)])
      []
    :: map (fun listener => listenToAnimation listener (mkReadVarExpr transition))
           (filter (fun listener =>
                      isAnimation listener
                      && String.eqb (eventName listener)
                                    (boundProp_name boundProp))
                   eventListeners) in
  let registered :=
    setDebugInfo detectChangesRenderPropertiesMethod
      (nodeIndex (element_node compileElement)) (OfBoundElementProperty boundProp)
      (appendBinding (mkCompileBinding (element_node compileElement)
                                       (OfBoundElementProperty boundProp)) v) in
  let converted :=
    returned
      (convertCdExpressionToIr
         ((if isHostProp then NoLocalsNameResolver else ViewNameResolver)
            (appendStmts detachMethod detached registered))
         context (boundProp_value boundProp) DetectChangesVars.valUnwrapper
         (S slot)) in
  let result :=
    bindAndWriteToRenderer_boundProp convertCdExpressionToIr context compileElement
                                     isHostProp eventListeners boundProp v in
  let emitted (animationFn : Expression) :=
    exists updateArgs detachArgs updateRest detachRest,
      stmts animationBindingsMethod (snd result)
      = stmts animationBindingsMethod v
        ++ evaluationStmts currValExpr (S slot) converted value
        ++ [guardStmt currValExpr fieldExpr converted
              (DeclareVarStmt transition
                 (InvokeFunctionExpr animationFn updateArgs) []
               :: updateRest)]
      /\ stmts detachMethod (snd result)
         = stmts detachMethod v
           ++ DeclareVarStmt transition
                (InvokeFunctionExpr animationFn detachArgs) []
              :: detachRest in
  boundProp_type boundProp = Animation ->
  sanitizedValue boundProp fieldExpr = Normal oldRenderValue ->
  sanitizedValue boundProp currValExpr = Normal renderValue ->
  expression converted = Some value ->
  (isHostProp = true ->
   emitted (animationFnOf (ReadProp (appElement compileElement) "componentView")))
  /\ (isHostProp = false -> emitted (animationFnOf ThisExpr)).
Proof.
  cbv zeta; intros Htype Hold Hnew Hvalue.
  destruct (animation_boundProp_spec context compileElement isHostProp
              eventListeners boundProp v oldRenderValue renderValue
              Htype Hold Hnew) as (_ & Hdetach & Hanimation & _).
  cbv zeta in Hdetach, Hanimation.
  rewrite Hvalue in Hanimation.
  split; intros Hhost; rewrite Hhost in *;
    do 4 eexists; (split; [exact Hanimation | exact Hdetach]).
Qed.

(** *** Order of the statements *)

Lemma knownSecurityContext_Normal (boundProp : @BoundElementPropertyAst AST)
      (e : Expression) :
  knownSecurityContext boundProp = true ->
  exists x, sanitizedValue boundProp e = Normal x.
Proof.
  unfold knownSecurityContext, sanitizedValue; simpl.
  repeat match goal with
         | |- context [(?a =? ?b)%Z] => destruct (a =? b)%Z
         end; intros H; try discriminate H; eexists; reflexivity.
Qed.

(** With a converter that never lowers anything, [bind] leaves the view as
    it is. *)
Lemma bind_nothing (currValExpr : ReadVarExpr) (fieldExpr : ReadPropExpr)
      (parsedExpression : AST) (context : Expression)
      (nameResolver : View -> NameResolver) (actions : list Statement)
      (method : MethodRef) (bindingIndex : nat) (v : View) :
  bind (fun (_ : @NameResolver AST) _ (_ : AST) _ _ => NoExpression)
       currValExpr fieldExpr parsedExpression context nameResolver actions
       method bindingIndex v
  = (Normal tt, v).
Proof. reflexivity. Qed.

(** The view a bound property has reached when the converter is asked has
    one more binding, and differs otherwise by the debug information and by
    the detach method only. *)
Lemma beforeConversion_frame
      (context : Expression) (compileElement : CompileElement)
      (isHostProp : bool) (eventListeners : list CompileEventListener)
      (boundProp : BoundElementPropertyAst) (v : View) :
  let w :=
    beforeConversion context compileElement isHostProp eventListeners boundProp v in
  bindings w
  = bindings v ++ [mkCompileBinding (element_node compileElement)
                                    (OfBoundElementProperty boundProp)]
  /\ fields w = fields v
  /\ componentContext w = componentContext v
  /\ (forall m, m <> detachMethod -> stmts m w = stmts m v).
Proof.
  cbv zeta; unfold beforeConversion.
  unfold bindAndWriteToRenderer_boundProp, andThen, bindingsLength, pushBinding,
    resetDebugInfo, lift, readView, addStmts, ret; cbv zeta.
  destruct (sanitizedValue boundProp (createBindFieldExpr _));
    [| cbn [snd]; repeat split; intros; stmts_simpl; reflexivity].
  destruct (sanitizedValue boundProp (createCurrValueExpr _));
    [| cbn [snd]; repeat split; intros; stmts_simpl; reflexivity].
  destruct (boundProp_type boundProp); rewrite bind_nothing; cbn [snd];
    repeat split; intros; bindings_simpl; fields_simpl;
    rewrite ?stmts_appendStmts_other by assumption;
    rewrite ?stmts_setDebugInfo, ?stmts_appendBinding; reflexivity.
Qed.

(** A bound property the selector accepts comes to one call of [bind], made
    in that view, at the index that follows the slot, with the method of its
    kind. *)
Lemma boundProp_as_bind
      (context : Expression) (compileElement : CompileElement)
      (isHostProp : bool) (eventListeners : list CompileEventListener)
      (boundProp : BoundElementPropertyAst) (v : View) :
  let slot := length (bindings v) in
  knownSecurityContext boundProp = true ->
  exists actions,
    bindAndWriteToRenderer_boundProp convertCdExpressionToIr context compileElement
                                     isHostProp eventListeners boundProp v
    = bind convertCdExpressionToIr (createCurrValueExpr slot)
           (createBindFieldExpr slot) (boundProp_value boundProp) context
           (if isHostProp then NoLocalsNameResolver else ViewNameResolver)
           actions (guardMethodOf boundProp) (S slot)
           (beforeConversion context compileElement isHostProp eventListeners
                             boundProp v).
Proof.
  cbv zeta; intros Hknown.
  destruct (knownSecurityContext_Normal boundProp
              (createBindFieldExpr (length (bindings v))) Hknown) as [old Hold].
  destruct (knownSecurityContext_Normal boundProp
              (createCurrValueExpr (length (bindings v))) Hknown) as [new Hnew].
  unfold beforeConversion, guardMethodOf.
  destruct (boundProp_type boundProp) eqn:Htype;
    eexists; run_boundProp Hold Hnew; rewrite Htype, bind_nothing; cbn [snd];
    rewrite ?bindings_appendStmts, length_bindings_registered; reflexivity.
Qed.

(** One bound property: the callback returns, one binding is registered,
    and each of the two guarded methods receives the block of the property
    or nothing. *)
Lemma boundProp_appends_its_block
      (context : Expression) (compileElement : CompileElement)
      (isHostProp : bool) (eventListeners : list CompileEventListener)
      (boundProp : BoundElementPropertyAst) (v : View) :
  let result :=
    bindAndWriteToRenderer_boundProp convertCdExpressionToIr context compileElement
                                     isHostProp eventListeners boundProp v in
  let conversions :=
    boundPropConversions convertCdExpressionToIr context compileElement
                         isHostProp eventListeners [boundProp] v in
  knownSecurityContext boundProp = true ->
  exists actions,
    fst result = Normal tt
    /\ length (bindings (snd result)) = S (length (bindings v))
    /\ forall method,
        method = detectChangesRenderPropertiesMethod
        \/ method = animationBindingsMethod ->
        stmts method (snd result)
        = stmts method v
          ++ guardedBlocks method (length (bindings v))
                           (combine (combine [boundProp] [actions]) conversions).
Proof.
  cbv zeta; intros Hknown.
  destruct (boundProp_as_bind context compileElement isHostProp eventListeners
              boundProp v Hknown) as [actions Hrun].
  destruct (beforeConversion_frame context compileElement isHostProp
              eventListeners boundProp v) as (Hbindings & _ & _ & Hstmts).
  exists actions; rewrite Hrun, bind_spec; cbv zeta; cbn [fst snd].
  cbn [boundPropConversions combine guardedBlocks].
  split; [reflexivity |].
  split.
  - destruct (expression _); bindings_simpl; rewrite Hbindings, length_app;
      simpl; lia.
  - intros method Hmethod; rewrite app_nil_r.
    destruct (expression _) as [value |].
    + unfold guardMethodOf.
      destruct Hmethod as [-> | ->]; destruct (boundProp_type boundProp);
        cbn [MethodRef_eqb]; stmts_simpl;
        rewrite Hstmts by discriminate; reflexivity.
    + rewrite app_nil_r; apply Hstmts.
      destruct Hmethod as [-> | ->]; discriminate.
Qed.

Lemma guardedBlocks_cons (method : MethodRef) (slot : nat)
      (first : @BoundElementPropertyAst AST * list Statement * Conversion)
      (rest : list (BoundElementPropertyAst * list Statement * Conversion)) :
  guardedBlocks method slot (first :: rest)
  = guardedBlocks method slot [first] ++ guardedBlocks method (S slot) rest.
Proof.
  destruct first as [[boundProp actions] conversion]; simpl.
  rewrite app_nil_r; reflexivity.
Qed.

(** The whole list: the blocks of the properties follow each other in the
    order of the list, one slot each. *)
Lemma bindAndWriteToRenderer_appends_blocks
      (context : Expression) (compileElement : CompileElement)
      (isHostProp : bool) (eventListeners : list CompileEventListener)
      (boundProps : list BoundElementPropertyAst) :
  forall v : View,
    forallb knownSecurityContext boundProps = true ->
    exists actionsOf : list (list Statement),
      length actionsOf = length boundProps
      /\ fst (bindAndWriteToRenderer convertCdExpressionToIr boundProps context
                compileElement isHostProp eventListeners v) = Normal tt
      /\ forall method,
          method = detectChangesRenderPropertiesMethod
          \/ method = animationBindingsMethod ->
          stmts method
                (snd (bindAndWriteToRenderer convertCdExpressionToIr boundProps
                        context compileElement isHostProp eventListeners v))
          = stmts method v
            ++ guardedBlocks method (length (bindings v))
                 (combine (combine boundProps actionsOf)
                          (boundPropConversions convertCdExpressionToIr context
                             compileElement isHostProp eventListeners
                             boundProps v)).
Proof.
  unfold bindAndWriteToRenderer.
  induction boundProps as [| boundProp rest IH]; intros v Hknown.
  - exists []; simpl; repeat split.
    intros method _; rewrite app_nil_r; reflexivity.
  - simpl in Hknown; apply andb_prop in Hknown as [Hfirst Hrest].
    destruct (boundProp_appends_its_block context compileElement isHostProp
                eventListeners boundProp v Hfirst)
      as (actions & Hreturns & Hregistered & Hblock).
    cbn [forEach boundPropConversions]; unfold andThen.
    cbn [boundPropConversions] in Hblock.
    destruct (bindAndWriteToRenderer_boundProp _ _ _ _ _ boundProp v)
      as [[[] | message] v1]; cbn [fst snd] in *; [| discriminate Hreturns].
    destruct (IH v1 Hrest) as (actionsOf & Hlength & Hnormal & Hblocks).
    exists (actions :: actionsOf); split; [simpl; lia |].
    split; [exact Hnormal |].
    intros method Hmethod.
    rewrite (Hblocks method Hmethod), (Hblock method Hmethod), Hregistered.
    cbn [combine].
    match goal with
    | |- _ = _ ++ guardedBlocks _ _ (?first :: ?others) =>
        rewrite (guardedBlocks_cons method _ first others)
    end.
    rewrite app_assoc; reflexivity.
Qed.

(** C8. Within one binding whose evaluation is present, [bind] appends to
    its method, in this order: one declaration for each temporary, the reset
    of the unwrapper when unwrapping is needed, the final declaration of the
    fresh value, the guard.  Over a list of bound properties, each of the two
    guarded methods receives the blocks of its bindings in the order of the
    list, the slots growing by one from the number of bindings of the view;
    the block of a property is made from the conversion of its expression in
    the view the run has reached. *)
Theorem C8_statement_order
        (currValExpr : ReadVarExpr) (fieldExpr : ReadPropExpr)
        (parsedExpression : AST) (context : Expression)
        (nameResolver : View -> NameResolver) (actions : list Statement)
        (method : MethodRef) (bindingIndex : nat) (v : View) (value : Expression)
        (compileElement : CompileElement) (isHostProp : bool)
        (eventListeners : list CompileEventListener)
        (boundProps : list BoundElementPropertyAst) :
  let converted :=
    returned
      (convertCdExpressionToIr (nameResolver v) context parsedExpression
                               DetectChangesVars.valUnwrapper bindingIndex) in
  let one :=
    bind convertCdExpressionToIr currValExpr fieldExpr parsedExpression context
         nameResolver actions method bindingIndex v in
  let all :=
    bindAndWriteToRenderer convertCdExpressionToIr boundProps context
                           compileElement isHostProp eventListeners v in
  expression converted = Some value ->
  method <> createMethod ->
  forallb knownSecurityContext boundProps = true ->
  stmts method (snd one)
  = stmts method v
    ++ map (temporaryDeclaration bindingIndex) (seq 0 (temporaryCount converted))
    ++ (if needsValueUnwrapper converted
        then [ExpressionStatement
                (InvokeMethodExpr (ReadVar "valUnwrapper") "reset" [])]
        else [])
    ++ [DeclareVarStmt (var_name currValExpr) value [Final]]
    ++ [guardStmt currValExpr fieldExpr converted actions]
  /\ exists actionsOf : list (list Statement),
      length actionsOf = length boundProps
      /\ fst all = Normal tt
      /\ forall guarded,
          guarded = detectChangesRenderPropertiesMethod
          \/ guarded = animationBindingsMethod ->
          stmts guarded (snd all)
          = stmts guarded v
            ++ guardedBlocks guarded (length (bindings v))
                 (combine (combine boundProps actionsOf)
                          (boundPropConversions convertCdExpressionToIr context
                             compileElement isHostProp eventListeners
                             boundProps v)).
Proof.
  cbv zeta; intros Hvalue Hmethod Hknown; split.
  - rewrite bind_spec; cbv zeta; rewrite Hvalue; cbn [snd].
    rewrite stmts_appendStmts_same.
    rewrite stmts_appendStmts_other by assumption.
    rewrite stmts_appendField, stmts_appendStmts_same.
    rewrite stmts_resolved_other by assumption.
    unfold evaluationStmts; rewrite <- !app_assoc; reflexivity.
  - apply bindAndWriteToRenderer_appends_blocks; assumption.
Qed.

(** *** Names of the slots *)

Lemma string_of_nat_inj (n m : nat) : string_of_nat n = string_of_nat m -> n = m.
Proof.
  unfold string_of_nat; intros H.
  apply Unsigned.to_uint_inj.
  assert (Hsome : Some (Nat.to_uint n) = Some (Nat.to_uint m)).
  { rewrite <- (NilEmpty.usu (Nat.to_uint n)), <- (NilEmpty.usu (Nat.to_uint m)).
    rewrite H; reflexivity. }
  injection Hsome; trivial.
Qed.

Lemma append_inj_r (p a b : string) : (p ++ a = p ++ b)%string -> a = b.
Proof.
  induction p as [| c p IH]; simpl; intros H; [exact H |].
  injection H; exact IH.
Qed.

(** X1. Two different slots never share the name of their cached field, nor
    the name of their fresh-value variable. *)
Theorem X1_slot_names_distinct (n m : nat) :
  n <> m ->
  prop_name (createBindFieldExpr n) <> prop_name (createBindFieldExpr m)
  /\ var_name (createCurrValueExpr n) <> var_name (createCurrValueExpr m).
Proof.
  intros Hnm; split; intros H; apply Hnm; apply string_of_nat_inj.
  - apply (append_inj_r "_expr_"); exact H.
  - apply (append_inj_r "currVal_"); exact H.
Qed.

(** *** When the sanitizer selector throws *)

(** X2. [sanitizedValue] returns an expression exactly when the
    classification is one of the six members of the enum, and whether it
    throws, and with which message, does not depend on the value. *)
Theorem X2_sanitizedValue_returns_iff_member
        (boundProp : @BoundElementPropertyAst AST) (e e' : Expression) :
  ((exists x, sanitizedValue boundProp e = Normal x)
   <-> In (boundProp_securityContext boundProp)
          [SecurityContext.NONE; SecurityContext.HTML; SecurityContext.STYLE;
           SecurityContext.SCRIPT; SecurityContext.URL;
           SecurityContext.RESOURCE_URL])
  /\ (forall message,
         sanitizedValue boundProp e = Throw message ->
         sanitizedValue boundProp e' = Throw message).
Proof.
  unfold sanitizedValue; split; [split |].
  - intros [x Hx]; simpl.
    repeat match goal with
           | H : context [(?a =? ?b)%Z] |- _ =>
               destruct (Z.eqb_spec a b); [auto 10 |]
           end.
    discriminate Hx.
  - simpl; intros Hin.
    repeat match goal with
           | |- context [(?a =? ?b)%Z] =>
               destruct (Z.eqb_spec a b); [eexists; reflexivity |]
           end.
    exfalso; intuition congruence.
  - intros message.
    repeat match goal with
           | |- context [(?a =? ?b)%Z] =>
               destruct (a =? b)%Z; [discriminate |]
           end.
    trivial.
Qed.

Lemma unknownSecurityContext_Throw (boundProp : @BoundElementPropertyAst AST)
      (e : Expression) :
  knownSecurityContext boundProp = false ->
  sanitizedValue boundProp e
  = Throw ("internal error, unexpected SecurityContext "
           ++ string_of_Z (boundProp_securityContext boundProp) ++ ".").
Proof.
  unfold knownSecurityContext, sanitizedValue; simpl.
  repeat match goal with
         | |- context [(?a =? ?b)%Z] => destruct (a =? b)%Z
         end; intros H; try discriminate H; reflexivity.
Qed.

Lemma forEach_app {A : Type} (f : A -> @Gen AST unit) (l l' : list A) (v : View) :
  forEach f (l ++ l') v
  = match forEach f l v with
    | (Normal _, w) => forEach f l' w
    | (Throw message, w) => (Throw message, w)
    end.
Proof.
  revert v; induction l as [| a l IH]; intros v; simpl.
  - reflexivity.
  - unfold andThen; destruct (f a v) as [[[] | message] w];
      [apply IH | reflexivity].
Qed.

(** A bound property whose classification is no member: the callback throws
    after the registration of the binding, before anything is emitted. *)
Lemma boundProp_unknown_throws
      (context : Expression) (compileElement : CompileElement)
      (isHostProp : bool) (eventListeners : list CompileEventListener)
      (boundProp : BoundElementPropertyAst) (v : View) :
  knownSecurityContext boundProp = false ->
  bindAndWriteToRenderer_boundProp convertCdExpressionToIr context compileElement
                                   isHostProp eventListeners boundProp v
  = (Throw ("internal error, unexpected SecurityContext "
            ++ string_of_Z (boundProp_securityContext boundProp) ++ "."),
     setDebugInfo detectChangesRenderPropertiesMethod
       (nodeIndex (element_node compileElement))
       (OfBoundElementProperty boundProp)
       (appendBinding (mkCompileBinding (element_node compileElement)
                                        (OfBoundElementProperty boundProp)) v)).
Proof.
  intros Hunknown.
  unfold bindAndWriteToRenderer_boundProp, andThen, bindingsLength, pushBinding,
    resetDebugInfo, lift; cbv zeta.
  rewrite (unknownSecurityContext_Throw boundProp _ Hunknown); reflexivity.
Qed.

(** X3. When the first bound property with a classification that is no
    member comes after [accepted], [bindAndWriteToRenderer] throws the error
    of that property.  The view it leaves is the one after [accepted], with
    the binding of the rejected property registered and the debug
    information set to it: nothing is emitted for the rejected property, and
    the properties after it are not looked at. *)
Theorem X3_bindAndWriteToRenderer_stops_at_unknown_classification
        (context : Expression) (compileElement : CompileElement)
        (isHostProp : bool) (eventListeners : list CompileEventListener)
        (accepted : list BoundElementPropertyAst)
        (rejected : BoundElementPropertyAst)
        (remaining : list BoundElementPropertyAst) (v : View) :
  forallb knownSecurityContext accepted = true ->
  knownSecurityContext rejected = false ->
  bindAndWriteToRenderer convertCdExpressionToIr
    (accepted ++ rejected :: remaining) context compileElement isHostProp
    eventListeners v
  = (Throw ("internal error, unexpected SecurityContext "
            ++ string_of_Z (boundProp_securityContext rejected) ++ "."),
     setDebugInfo detectChangesRenderPropertiesMethod
       (nodeIndex (element_node compileElement))
       (OfBoundElementProperty rejected)
       (appendBinding
          (mkCompileBinding (element_node compileElement)
                            (OfBoundElementProperty rejected))
          (snd (bindAndWriteToRenderer convertCdExpressionToIr accepted context
                  compileElement isHostProp eventListeners v)))).
Proof.
  intros Haccepted Hrejected.
  destruct (bindAndWriteToRenderer_appends_blocks context compileElement
              isHostProp eventListeners accepted v Haccepted)
    as (_ & _ & Hnormal & _).
  unfold bindAndWriteToRenderer in *; rewrite forEach_app.
  destruct (forEach _ accepted v) as [[[] | message] w];
    [| discriminate Hnormal].
  cbn [forEach snd]; unfold andThen.
  rewrite (boundProp_unknown_throws _ _ _ _ _ _ Hrejected); reflexivity.
Qed.

(** X4. [bindAndWriteToRenderer] returns normally only if every bound
    property has a classification the selector accepts: one property with
    another classification, anywhere in the list, makes the run throw. *)
Theorem X4_bindAndWriteToRenderer_returns_only_if_all_known
        (context : Expression) (compileElement : CompileElement)
        (isHostProp : bool) (eventListeners : list CompileEventListener)
        (boundProps : list BoundElementPropertyAst) (v : View)
        (boundProp : BoundElementPropertyAst) :
  fst (bindAndWriteToRenderer convertCdExpressionToIr boundProps context
         compileElement isHostProp eventListeners v) = Normal tt ->
  In boundProp boundProps ->
  In (boundProp_securityContext boundProp)
     [SecurityContext.NONE; SecurityContext.HTML; SecurityContext.STYLE;
      SecurityContext.SCRIPT; SecurityContext.URL; SecurityContext.RESOURCE_URL].
Proof.
  assert (Hknown : forall known : @BoundElementPropertyAst AST,
             knownSecurityContext known = true ->
             In (boundProp_securityContext known)
                [SecurityContext.NONE; SecurityContext.HTML;
                 SecurityContext.STYLE; SecurityContext.SCRIPT;
                 SecurityContext.URL; SecurityContext.RESOURCE_URL]).
  { intros known; unfold knownSecurityContext.
    rewrite existsb_exists.
    intros (z & Hin & Heq); apply Z.eqb_eq in Heq; subst z; exact Hin. }
  revert v; unfold bindAndWriteToRenderer.
  induction boundProps as [| first rest IH]; intros v Hnormal Hin.
  - destruct Hin.
  - cbn [forEach] in Hnormal; unfold andThen in Hnormal.
    destruct (knownSecurityContext first) eqn:Hfirst.
    + destruct Hin as [<- | Hin]; [apply Hknown; exact Hfirst |].
      destruct (bindAndWriteToRenderer_boundProp _ _ _ _ _ first v)
        as [[[] | message] w]; [| discriminate Hnormal].
      exact (IH w Hnormal Hin).
    + rewrite (boundProp_unknown_throws _ _ _ _ _ _ Hfirst) in Hnormal.
      discriminate Hnormal.
Qed.

(** *** Properties and classes *)

(** X5. For a property binding whose evaluation is present, the guard holds
    the call of [setElementProperty] with the node, the name and the
    sanitized fresh value; when the view logs binding updates, the call of
    [setBindingDebugInfo] with the renderer, the node, the name and the same
    value comes before it.  For a class binding it holds the call of
    [setElementClass] with the same three arguments, logging or not. *)
Theorem X5_property_and_class_updates
        (context : Expression) (compileElement : CompileElement)
        (isHostProp : bool) (eventListeners : list CompileEventListener)
        (boundProp : BoundElementPropertyAst) (v : View)
        (oldRenderValue renderValue value : Expression) :
  let slot := length (bindings v) in
  let currValExpr := createCurrValueExpr slot in
  let fieldExpr := createBindFieldExpr slot in
  let registered :=
    setDebugInfo detectChangesRenderPropertiesMethod
      (nodeIndex (element_node compileElement)) (OfBoundElementProperty boundProp)
      (appendBinding (mkCompileBinding (element_node compileElement)
                                       (OfBoundElementProperty boundProp)) v) in
  let converted :=
    returned
      (convertCdExpressionToIr
         ((if isHostProp then NoLocalsNameResolver else ViewNameResolver)
            registered)
         context (boundProp_value boundProp) DetectChangesVars.valUnwrapper
         (S slot)) in
  let result :=
    bindAndWriteToRenderer_boundProp convertCdExpressionToIr context compileElement
                                     isHostProp eventListeners boundProp v in
  let node := renderNode (element_node compileElement) in
  let name := LiteralExpr (LitString (boundProp_name boundProp)) in
  let update (method : string) : Statement :=
    ExpressionStatement
      (InvokeMethodExpr (ReadProp ThisExpr "renderer") method
                        [node; name; renderValue]) in
  let logged : Statement :=
    ExpressionStatement
      (InvokeFunctionExpr (ExternalExpr Identifiers.setBindingDebugInfo)
         [ReadProp ThisExpr "renderer"; node; name; renderValue]) in
  sanitizedValue boundProp fieldExpr = Normal oldRenderValue ->
  sanitizedValue boundProp currValExpr = Normal renderValue ->
  expression converted = Some value ->
  (boundProp_type boundProp = Property ->
   stmts detectChangesRenderPropertiesMethod (snd result)
   = stmts detectChangesRenderPropertiesMethod v
     ++ evaluationStmts currValExpr (S slot) converted value
     ++ [guardStmt currValExpr fieldExpr converted
           ((if logBindingUpdate v then [logged] else [])
            ++ [update "setElementProperty"])])
  /\ (boundProp_type boundProp = Class ->
      stmts detectChangesRenderPropertiesMethod (snd result)
      = stmts detectChangesRenderPropertiesMethod v
        ++ evaluationStmts currValExpr (S slot) converted value
        ++ [guardStmt currValExpr fieldExpr converted [update "setElementClass"]]).
Proof.
  cbv zeta; intros Hold Hnew Hvalue.
  split; intros Htype; run_boundProp Hold Hnew; rewrite Htype;
    rewrite bind_spec, length_bindings_registered; cbv zeta;
    rewrite Hvalue; cbn [snd];
    stmts_simpl; rewrite ?logBindingUpdate_registered; reflexivity.
Qed.

(** *** Texts *)

(** X6. [bindRenderText] registers one binding and converts the text in the
    view in which it is registered, at the slot itself, which is the number
    of bindings of the view.  When the evaluation is present, the fields get
    what the resolver pushed and then the field of the slot, the create
    method what the resolver pushed and then the initialization of that
    field, and the main method the evaluation followed by the guard around
    the one call of [setText] with the node and the fresh value; no other
    method changes.  When it is absent, no field is added and no method
    receives a statement. *)
Theorem X6_bindRenderText_outcome
        (boundText : BoundTextAst) (compileNode : CompileNode) (v : View) :
  let slot := length (bindings v) in
  let currValExpr := createCurrValueExpr slot in
  let fieldExpr := createBindFieldExpr slot in
  let registered :=
    setDebugInfo detectChangesRenderPropertiesMethod (nodeIndex compileNode)
      (OfBoundText boundText)
      (appendBinding (mkCompileBinding compileNode (OfBoundText boundText)) v) in
  let conversion :=
    convertCdExpressionToIr (ViewNameResolver registered) (componentContext v)
                            (boundText_value boundText)
                            DetectChangesVars.valUnwrapper slot in
  let converted := returned conversion in
  let result := bindRenderText convertCdExpressionToIr boundText compileNode v in
  bindings (snd result)
  = bindings v ++ [mkCompileBinding compileNode (OfBoundText boundText)]
  /\ match expression converted with
     | Some value =>
         fields (snd result)
         = fields v ++ pushedFields conversion
           ++ [mkClassField (prop_name fieldExpr) [Private]]
         /\ stmts createMethod (snd result)
            = stmts createMethod v ++ pushedCreateStmts conversion
              ++ [ExpressionStatement
                    (WritePropExpr ThisExpr (prop_name fieldExpr)
                                   (ExternalExpr Identifiers.UNINITIALIZED))]
         /\ stmts detectChangesRenderPropertiesMethod (snd result)
            = stmts detectChangesRenderPropertiesMethod v
              ++ evaluationStmts currValExpr slot converted value
              ++ [guardStmt currValExpr fieldExpr converted
                    [ExpressionStatement
                       (InvokeMethodExpr (ReadProp ThisExpr "renderer") "setText"
                          [renderNode compileNode; currValExpr : Expression])]]
         /\ forall m, m <> createMethod ->
                      m <> detectChangesRenderPropertiesMethod ->
                      stmts m (snd result) = stmts m v
     | None =>
         fields (snd result) = fields v
         /\ forall m, stmts m (snd result) = stmts m v
     end.
Proof.
  cbv zeta; rewrite bindRenderText_spec; cbv zeta; rewrite bind_spec.
  cbv zeta; cbn [fst snd].
  destruct (expression _) as [value |].
  - split; [bindings_simpl; reflexivity |].
    split; [fields_simpl; reflexivity |].
    split; [stmts_simpl; reflexivity |].
    split; [stmts_simpl; reflexivity |].
    intros m Hcreate Hrender.
    rewrite stmts_appendStmts_other by assumption.
    rewrite stmts_appendStmts_other by assumption.
    rewrite stmts_appendField.
    rewrite stmts_appendStmts_other by assumption.
    rewrite stmts_resolved_other by assumption.
    rewrite stmts_setDebugInfo, stmts_appendBinding; reflexivity.
  - split; [bindings_simpl; reflexivity |].
    split; [fields_simpl; reflexivity |].
    intros m; rewrite stmts_setDebugInfo, stmts_appendBinding; reflexivity.
Qed.

(** *** Cached fields over a list of bound properties *)

Lemma cachedSlots_ge (conversions : list Conversion) :
  forall slot k, In k (cachedSlots slot conversions) -> slot <= k.
Proof.
  induction conversions as [| conversion rest IH]; intros slot k Hin;
    simpl in Hin.
  - destruct Hin.
  - apply in_app_or in Hin as [Hin | Hin].
    + destruct (expression _); [destruct Hin as [<- | []]; lia | destruct Hin].
    + apply IH in Hin; lia.
Qed.

Lemma cachedSlots_NoDup (conversions : list Conversion) :
  forall slot, NoDup (cachedSlots slot conversions).
Proof.
  induction conversions as [| conversion rest IH]; intros slot; simpl.
  - constructor.
  - destruct (expression _); simpl; [| apply IH].
    constructor; [| apply IH].
    intros Hin; apply cachedSlots_ge in Hin; lia.
Qed.

(** One bound property: what the resolver pushed, then the field and its
    initialization when the evaluation is present. *)
Lemma boundProp_field_and_initialization
      (context : Expression) (compileElement : CompileElement)
      (isHostProp : bool) (eventListeners : list CompileEventListener)
      (boundProp : BoundElementPropertyAst) (v : View) :
  let result :=
    bindAndWriteToRenderer_boundProp convertCdExpressionToIr context compileElement
                                     isHostProp eventListeners boundProp v in
  let conversions :=
    boundPropConversions convertCdExpressionToIr context compileElement
                         isHostProp eventListeners [boundProp] v in
  knownSecurityContext boundProp = true ->
  fields (snd result)
  = fields v ++ fieldsOfConversions (length (bindings v)) conversions
  /\ stmts createMethod (snd result)
     = stmts createMethod v
       ++ createStmtsOfConversions (length (bindings v)) conversions.
Proof.
  cbv zeta; intros Hknown.
  destruct (boundProp_as_bind context compileElement isHostProp eventListeners
              boundProp v Hknown) as [actions Hrun].
  destruct (beforeConversion_frame context compileElement isHostProp
              eventListeners boundProp v) as (_ & Hfields & _ & Hstmts).
  rewrite Hrun, bind_spec; cbv zeta; cbn [snd].
  cbn [boundPropConversions fieldsOfConversions createStmtsOfConversions].
  assert (Hcreate : guardMethodOf boundProp <> createMethod)
    by (unfold guardMethodOf; destruct (boundProp_type boundProp); discriminate).
  destruct (convertCdExpressionToIr _ _ _ _ _) as [| value u t fs ss];
    cbn [returned expression pushedFields pushedCreateStmts].
  - rewrite !app_nil_r, Hfields, Hstmts by discriminate; split; reflexivity.
  - split.
    + fields_simpl; rewrite Hfields; reflexivity.
    + rewrite stmts_appendStmts_other by (apply not_eq_sym; exact Hcreate).
      rewrite stmts_appendStmts_same, stmts_appendField.
      rewrite stmts_appendStmts_other by (apply not_eq_sym; exact Hcreate).
      rewrite stmts_resolved_create, Hstmts by discriminate.
      cbn [pushedCreateStmts]; rewrite <- !app_assoc, ?app_nil_r; reflexivity.
Qed.

Lemma fields_of_bound_properties
      (context : Expression) (compileElement : CompileElement)
      (isHostProp : bool) (eventListeners : list CompileEventListener)
      (boundProps : list BoundElementPropertyAst) :
  forall v : View,
    forallb knownSecurityContext boundProps = true ->
    let result :=
      bindAndWriteToRenderer convertCdExpressionToIr boundProps context
                             compileElement isHostProp eventListeners v in
    let conversions :=
      boundPropConversions convertCdExpressionToIr context compileElement
                           isHostProp eventListeners boundProps v in
    fields (snd result)
    = fields v ++ fieldsOfConversions (length (bindings v)) conversions
    /\ stmts createMethod (snd result)
       = stmts createMethod v
         ++ createStmtsOfConversions (length (bindings v)) conversions.
Proof.
  unfold bindAndWriteToRenderer.
  induction boundProps as [| boundProp rest IH]; intros v Hknown; cbv zeta.
  - simpl; rewrite !app_nil_r; split; reflexivity.
  - simpl in Hknown; apply andb_prop in Hknown as [Hfirst Hrest].
    destruct (boundProp_field_and_initialization context compileElement
                isHostProp eventListeners boundProp v Hfirst)
      as [Hfield Hcreate].
    destruct (boundProp_appends_its_block context compileElement isHostProp
                eventListeners boundProp v Hfirst)
      as (_ & Hreturns & Hregistered & _).
    cbv zeta in Hfield, Hcreate.
    cbn [boundPropConversions fieldsOfConversions createStmtsOfConversions]
      in Hfield, Hcreate.
    rewrite !app_nil_r in Hfield, Hcreate.
    cbn [forEach boundPropConversions]; unfold andThen.
    destruct (bindAndWriteToRenderer_boundProp _ _ _ _ _ boundProp v)
      as [[[] | message] v1]; cbn [fst snd] in *; [| discriminate Hreturns].
    destruct (IH v1 Hrest) as [Hfields Hcreates]; cbv zeta in Hfields, Hcreates.
    rewrite Hfields, Hcreates, Hfield, Hcreate, Hregistered.
    cbn [fieldsOfConversions createStmtsOfConversions].
    rewrite <- !app_assoc; split; reflexivity.
Qed.

(** X7. Over a list of bound properties the selector accepts,
    [bindAndWriteToRenderer] adds to the fields, for each property in the
    order of the list, what the resolver pushed during the conversion and
    then, when the evaluation is present, the private cached field of the
    slot; it adds to the create method, in the same order, what the resolver
    pushed and then the statement that sets that field to the uninitialized
    sentinel.  The names of the cached fields it adds are pairwise
    different. *)
Theorem X7_fields_and_their_initializations
        (context : Expression) (compileElement : CompileElement)
        (isHostProp : bool) (eventListeners : list CompileEventListener)
        (boundProps : list BoundElementPropertyAst) (v : View) :
  let result :=
    bindAndWriteToRenderer convertCdExpressionToIr boundProps context
                           compileElement isHostProp eventListeners v in
  let conversions :=
    boundPropConversions convertCdExpressionToIr context compileElement
                         isHostProp eventListeners boundProps v in
  forallb knownSecurityContext boundProps = true ->
  fields (snd result)
  = fields v ++ fieldsOfConversions (length (bindings v)) conversions
  /\ stmts createMethod (snd result)
     = stmts createMethod v
       ++ createStmtsOfConversions (length (bindings v)) conversions
  /\ NoDup (map (fun k => prop_name (createBindFieldExpr k))
                (cachedSlots (length (bindings v)) conversions)).
Proof.
  cbv zeta; intros Hknown.
  destruct (fields_of_bound_properties context compileElement isHostProp
              eventListeners boundProps v Hknown) as [Hfields Hcreate].
  split; [exact Hfields | split; [exact Hcreate |]].
  apply Injective_map_NoDup; [| apply cachedSlots_NoDup].
  intros n m Hname; apply string_of_nat_inj.
  apply (append_inj_r "_expr_"); exact Hname.
Qed.

(** *** The inputs of a directive, as a whole *)

Lemma componentContext_registered (m : MethodRef) (i : nat) (a : TemplateAst)
      (b : CompileBinding) (v : View) :
  componentContext (setDebugInfo m i a (appendBinding b v)) = componentContext v.
Proof. destruct m; reflexivity. Qed.

(** One input, in the form the induction over the inputs uses. *)
Lemma directive_input_step
      (directiveWrapperInstance : Expression) (compileElement : CompileElement)
      (input : BoundDirectivePropertyAst) (v : View) :
  let result :=
    bindDirectiveInputs_input convertCdExpressionToIr directiveWrapperInstance
                              compileElement input v in
  let conversions :=
    inputConversions convertCdExpressionToIr directiveWrapperInstance
                     compileElement [input] v in
  fst result = Normal tt
  /\ stmts detectChangesInInputsMethod (snd result)
     = stmts detectChangesInInputsMethod v
       ++ inputBlocks directiveWrapperInstance (length (bindings v))
                      (combine [input] conversions)
  /\ fields (snd result) = fields v ++ flat_map pushedFields conversions
  /\ stmts createMethod (snd result)
     = stmts createMethod v ++ flat_map pushedCreateStmts conversions
  /\ (forall m, m <> detectChangesInInputsMethod -> m <> createMethod ->
                stmts m (snd result) = stmts m v)
  /\ length (bindings (snd result)) = S (length (bindings v)).
Proof.
  cbv zeta; rewrite bindDirectiveInputs_input_spec; cbv zeta; cbn [fst snd].
  cbn [inputConversions combine inputBlocks flat_map]; rewrite !app_nil_r.
  destruct (convertCdExpressionToIr _ _ _ _ _) as [| value u t fs ss];
    cbn [returned expression pushedFields pushedCreateStmts needsValueUnwrapper].
  - rewrite !app_nil_r; repeat split; intros;
      rewrite ?stmts_setDebugInfo, ?stmts_appendBinding; try reflexivity.
    bindings_simpl; rewrite length_app; simpl; lia.
  - split; [reflexivity |].
    split; [stmts_simpl; reflexivity |].
    split; [fields_simpl; reflexivity |].
    split; [stmts_simpl; reflexivity |].
    split.
    + intros m Hm Hc; rewrite stmts_appendStmts_other by assumption.
      rewrite stmts_resolved_other by assumption.
      rewrite stmts_setDebugInfo, stmts_appendBinding; reflexivity.
    + bindings_simpl; rewrite length_app; simpl; lia.
Qed.

Lemma directive_inputs_forEach
      (directiveWrapperInstance : Expression) (compileElement : CompileElement)
      (directiveInputs : list BoundDirectivePropertyAst) :
  forall v : View,
    let result :=
      forEach (bindDirectiveInputs_input convertCdExpressionToIr
                 directiveWrapperInstance compileElement)
              directiveInputs v in
    let conversions :=
      inputConversions convertCdExpressionToIr directiveWrapperInstance
                       compileElement directiveInputs v in
    fst result = Normal tt
    /\ stmts detectChangesInInputsMethod (snd result)
       = stmts detectChangesInInputsMethod v
         ++ inputBlocks directiveWrapperInstance (length (bindings v))
                        (combine directiveInputs conversions)
    /\ fields (snd result) = fields v ++ flat_map pushedFields conversions
    /\ stmts createMethod (snd result)
       = stmts createMethod v ++ flat_map pushedCreateStmts conversions
    /\ (forall m, m <> detectChangesInInputsMethod -> m <> createMethod ->
                  stmts m (snd result) = stmts m v)
    /\ length (bindings (snd result))
       = length (bindings v) + length directiveInputs.
Proof.
  induction directiveInputs as [| input rest IH]; intros v; cbv zeta.
  - simpl; rewrite !app_nil_r, Nat.add_0_r; repeat split; reflexivity.
  - cbn [forEach inputConversions]; unfold andThen.
    pose proof (directive_input_step directiveWrapperInstance compileElement
                  input v) as Hone.
    cbv zeta in Hone; cbn [inputConversions combine inputBlocks flat_map] in Hone.
    rewrite !app_nil_r in Hone.
    destruct Hone as (Hreturns & Hinputs & Hfields & Hcreate & Hothers & Hbindings).
    destruct (bindDirectiveInputs_input _ _ _ input v) as [[[] | message] v1];
      cbn [fst snd] in *; [| discriminate Hreturns].
    destruct (IH v1) as (Hnormal & Hinputs' & Hfields' & Hcreate' & Hothers'
                         & Hlength).
    split; [exact Hnormal |].
    split.
    { rewrite Hinputs', Hinputs, Hbindings; cbn [combine inputBlocks].
      rewrite <- app_assoc; reflexivity. }
    split; [rewrite Hfields', Hfields; cbn [flat_map];
            rewrite <- app_assoc; reflexivity |].
    split; [rewrite Hcreate', Hcreate; cbn [flat_map];
            rewrite <- app_assoc; reflexivity |].
    split.
    { intros m Hm Hc; rewrite (Hothers' m Hm Hc); apply Hothers; assumption. }
    rewrite Hlength, Hbindings; simpl; lia.
Qed.

(** X8. [bindDirectiveInputs] appends to the inputs method, for each input in
    turn whose evaluation is present, the evaluation and the call of the
    check method of the input, the slots growing by one from the number of
    bindings of the view, and after them the statement of
    [detectChangesInternal].  It registers one binding for each input,
    present or not.  The fields and the create method receive what the
    resolver pushed during the conversions of the inputs and nothing from
    the binder; no other method receives a statement. *)
Theorem X8_bindDirectiveInputs_as_a_whole
        (directiveAst : DirectiveAst) (directiveWrapperInstance : Expression)
        (compileElement : CompileElement) (v : View) :
  let result :=
    bindDirectiveInputs convertCdExpressionToIr isDefaultChangeDetectionStrategy
                        directiveAst directiveWrapperInstance compileElement v in
  let conversions :=
    inputConversions convertCdExpressionToIr directiveWrapperInstance
      compileElement (inputs directiveAst)
      (setDebugInfo detectChangesInInputsMethod
         (nodeIndex (element_node compileElement)) (sourceAst compileElement) v) in
  let call :=
    InvokeMethodExpr directiveWrapperInstance "detectChangesInternal"
      [ThisExpr; renderNode (element_node compileElement);
       ReadVar "throwOnChange"] in
  let final :=
    if isComponent (directive directiveAst)
       && negb (isDefaultChangeDetectionStrategy
                  (changeDetection (directive directiveAst)))
    then IfStmt call
           [ExpressionStatement
              (InvokeMethodExpr
                 (ReadProp (appElement compileElement) "componentView")
                 "markAsCheckOnce" [])]
           []
    else ExpressionStatement call in
  stmts detectChangesInInputsMethod (snd result)
  = stmts detectChangesInInputsMethod v
    ++ inputBlocks directiveWrapperInstance (length (bindings v))
                   (combine (inputs directiveAst) conversions)
    ++ [final]
  /\ fields (snd result) = fields v ++ flat_map pushedFields conversions
  /\ stmts createMethod (snd result)
     = stmts createMethod v ++ flat_map pushedCreateStmts conversions
  /\ (forall m, m <> detectChangesInInputsMethod -> m <> createMethod ->
                stmts m (snd result) = stmts m v)
  /\ length (bindings (snd result))
     = length (bindings v) + length (inputs directiveAst).
Proof.
  cbv zeta.
  pose proof (directive_inputs_forEach directiveWrapperInstance compileElement
                (inputs directiveAst)
                (setDebugInfo detectChangesInInputsMethod
                   (nodeIndex (element_node compileElement))
                   (sourceAst compileElement) v)) as H.
  cbv zeta in H.
  destruct H as (Hnormal & Hinputs & Hfields & Hcreate & Hothers & Hlength).
  unfold bindDirectiveInputs, andThen at 1, resetDebugInfo.
  unfold andThen.
  destruct (forEach _ (inputs directiveAst) _) as [[[] | message] w];
    cbn [fst snd] in *; [| discriminate Hnormal].
  unfold addStmt; cbn [fst snd].
  split.
  { rewrite stmts_appendStmts_same, Hinputs, stmts_setDebugInfo.
    rewrite bindings_setDebugInfo, <- app_assoc; reflexivity. }
  split; [rewrite fields_appendStmts, Hfields, fields_setDebugInfo; reflexivity |].
  split.
  { rewrite stmts_appendStmts_other by discriminate.
    rewrite Hcreate, stmts_setDebugInfo; reflexivity. }
  split.
  { intros m Hm Hc; rewrite stmts_appendStmts_other by assumption.
    rewrite (Hothers m Hm Hc), stmts_setDebugInfo; reflexivity. }
  rewrite bindings_appendStmts, Hlength, bindings_setDebugInfo; reflexivity.
Qed.

(** *** What a bound property leaves alone *)

Lemma filter_filter {A : Type} (f : A -> bool) (l : list A) :
  filter f (filter f l) = filter f l.
Proof.
  induction l as [| a l IH]; simpl; [reflexivity |].
  destruct (f a) eqn:Hfa; simpl; rewrite ?Hfa, IH; reflexivity.
Qed.

(** X9. The event listeners matter to animation bindings only, and among them
    only the animation listeners of the name of the binding: a binding of
    another kind gives the same result with no listener at all, and an
    animation binding gives the same result with the other listeners
    removed. *)
Theorem X9_only_matching_animation_listeners_count
        (context : Expression) (compileElement : CompileElement)
        (isHostProp : bool) (eventListeners : list CompileEventListener)
        (boundProp : BoundElementPropertyAst) (v : View) :
  let run listeners :=
    bindAndWriteToRenderer_boundProp convertCdExpressionToIr context compileElement
                                     isHostProp listeners boundProp v in
  (boundProp_type boundProp <> Animation -> run eventListeners = run [])
  /\ run eventListeners
     = run (filter (fun listener =>
                      isAnimation listener
                      && String.eqb (eventName listener)
                                    (boundProp_name boundProp))
                   eventListeners).
Proof.
  cbv zeta.
  unfold bindAndWriteToRenderer_boundProp, andThen, bindingsLength, pushBinding,
    resetDebugInfo, lift, readView, addStmts, ret; cbv zeta.
  destruct (sanitizedValue boundProp (createBindFieldExpr _));
    [| split; reflexivity].
  destruct (sanitizedValue boundProp (createCurrValueExpr _));
    [| split; reflexivity].
  destruct (boundProp_type boundProp); split;
    try reflexivity; try (intros H; contradiction H; reflexivity).
  rewrite filter_filter; reflexivity.
Qed.

(** One bound property, whatever its classification: the inputs method, the
    context and the logging flag of the view stay as they are, and so do the
    animation and detach methods unless the binding is an animation. *)
Lemma boundProp_frame
      (context : Expression) (compileElement : CompileElement)
      (isHostProp : bool) (eventListeners : list CompileEventListener)
      (boundProp : BoundElementPropertyAst) (v : View) :
  let result :=
    bindAndWriteToRenderer_boundProp convertCdExpressionToIr context compileElement
                                     isHostProp eventListeners boundProp v in
  stmts detectChangesInInputsMethod (snd result)
  = stmts detectChangesInInputsMethod v
  /\ componentContext (snd result) = componentContext v
  /\ (boundProp_type boundProp <> Animation ->
      stmts animationBindingsMethod (snd result) = stmts animationBindingsMethod v
      /\ stmts detachMethod (snd result) = stmts detachMethod v).
Proof.
  cbv zeta.
  unfold bindAndWriteToRenderer_boundProp, andThen, bindingsLength, pushBinding,
    resetDebugInfo, lift, readView, addStmts, ret; cbv zeta.
  destruct (sanitizedValue boundProp (createBindFieldExpr _));
    [| repeat split; stmts_simpl; reflexivity].
  destruct (sanitizedValue boundProp (createCurrValueExpr _));
    [| repeat split; stmts_simpl; reflexivity].
  destruct (boundProp_type boundProp);
    rewrite bind_spec; cbv zeta; cbn [snd]; destruct (expression _);
    (split; [stmts_simpl; reflexivity |]);
    (split;
     [repeat first
        [ rewrite componentContext_appendStmts
        | rewrite componentContext_resolved
        | rewrite componentContext_setDebugInfo
        | progress cbn [componentContext appendField appendBinding] ];
      reflexivity |]);
    intros Hkind; try (contradiction Hkind; reflexivity);
    split; stmts_simpl; reflexivity.
Qed.

(** X10. [bindAndWriteToRenderer] never appends to the inputs method, whether
    it returns or throws; and when no bound property is an animation it
    appends neither to the animation bindings method nor to the detach
    method. *)
Theorem X10_bindAndWriteToRenderer_leaves_other_methods
        (context : Expression) (compileElement : CompileElement)
        (isHostProp : bool) (eventListeners : list CompileEventListener)
        (boundProps : list BoundElementPropertyAst) (v : View) :
  let result :=
    bindAndWriteToRenderer convertCdExpressionToIr boundProps context
                           compileElement isHostProp eventListeners v in
  stmts detectChangesInInputsMethod (snd result)
  = stmts detectChangesInInputsMethod v
  /\ ((forall boundProp, In boundProp boundProps ->
                         boundProp_type boundProp <> Animation) ->
      stmts animationBindingsMethod (snd result) = stmts animationBindingsMethod v
      /\ stmts detachMethod (snd result) = stmts detachMethod v).
Proof.
  cbv zeta; unfold bindAndWriteToRenderer; revert v.
  induction boundProps as [| boundProp rest IH]; intros v.
  - simpl; repeat split; reflexivity.
  - cbn [forEach]; unfold andThen.
    destruct (boundProp_frame context compileElement isHostProp eventListeners
                boundProp v) as (Hinputs & _ & Hkind).
    destruct (bindAndWriteToRenderer_boundProp _ _ _ _ _ boundProp v)
      as [[[] | message] v1]; cbn [snd] in *.
    + destruct (IH v1) as [Hrest Hkinds]; split.
      * rewrite Hrest; exact Hinputs.
      * intros Hnone.
        destruct Hkind as [Hanimation Hdetach];
          [apply Hnone; left; reflexivity |].
        destruct Hkinds as [Hanimations Hdetachs];
          [intros other Hin; apply Hnone; right; exact Hin |].
        rewrite Hanimations, Hdetachs; split; assumption.
    + split; [exact Hinputs |].
      intros Hnone; apply Hkind, Hnone; left; reflexivity.
Qed.

(** *** A render property followed by a text *)

Lemma evaluationStmts_first_temporary (currValExpr : ReadVarExpr)
      (bindingIndex : nat) (converted : ExpressionWithWrappedValueInfo)
      (value : Expression) :
  0 < temporaryCount converted ->
  exists rest,
    evaluationStmts currValExpr bindingIndex converted value
    = temporaryDeclaration bindingIndex 0 :: rest.
Proof.
  unfold evaluationStmts; intros Hcount.
  destruct (temporaryCount converted) as [| k]; [lia |].
  simpl; eexists; reflexivity.
Qed.

(** A bound property that is no animation is converted in the view in which
    its binding is registered. *)
Lemma beforeConversion_registered
      (context : Expression) (compileElement : CompileElement)
      (isHostProp : bool) (eventListeners : list CompileEventListener)
      (boundProp : BoundElementPropertyAst) (v : View) :
  knownSecurityContext boundProp = true ->
  boundProp_type boundProp <> Animation ->
  beforeConversion context compileElement isHostProp eventListeners boundProp v
  = setDebugInfo detectChangesRenderPropertiesMethod
      (nodeIndex (element_node compileElement)) (OfBoundElementProperty boundProp)
      (appendBinding (mkCompileBinding (element_node compileElement)
                                       (OfBoundElementProperty boundProp)) v).
Proof.
  intros Hknown Hkind.
  destruct (knownSecurityContext_Normal boundProp
              (createBindFieldExpr (length (bindings v))) Hknown) as [old Hold].
  destruct (knownSecurityContext_Normal boundProp
              (createCurrValueExpr (length (bindings v))) Hknown) as [new Hnew].
  unfold beforeConversion.
  destruct (boundProp_type boundProp) eqn:Htype;
    try (contradiction Hkind; reflexivity);
    run_boundProp Hold Hnew; rewrite Htype, bind_nothing; reflexivity.
Qed.

(** X11. In every view, a render property (not an animation) and the text
    registered right after it are evaluated at the same index, the number of
    bindings after the registration of the property: when both expressions
    need a temporary, the main method declares the first temporary of that
    index twice. *)
Theorem X11_property_then_text_declare_the_same_temporary
        (context : Expression) (compileElement : CompileElement)
        (isHostProp : bool) (eventListeners : list CompileEventListener)
        (boundProp : BoundElementPropertyAst)
        (boundText : BoundTextAst) (compileNode : CompileNode) (v : View)
        (propertyValue textValue : Expression) :
  let slot := length (bindings v) in
  let ofProperty :=
    returned
      (convertCdExpressionToIr
         ((if isHostProp then NoLocalsNameResolver else ViewNameResolver)
            (setDebugInfo detectChangesRenderPropertiesMethod
               (nodeIndex (element_node compileElement))
               (OfBoundElementProperty boundProp)
               (appendBinding
                  (mkCompileBinding (element_node compileElement)
                                    (OfBoundElementProperty boundProp)) v)))
         context (boundProp_value boundProp) DetectChangesVars.valUnwrapper
         (S slot)) in
  let afterProperty :=
    snd (bindAndWriteToRenderer_boundProp convertCdExpressionToIr context
           compileElement isHostProp eventListeners boundProp v) in
  let ofText :=
    returned
      (convertCdExpressionToIr
         (ViewNameResolver
            (setDebugInfo detectChangesRenderPropertiesMethod
               (nodeIndex compileNode) (OfBoundText boundText)
               (appendBinding
                  (mkCompileBinding compileNode (OfBoundText boundText))
                  afterProperty)))
         (componentContext v) (boundText_value boundText)
         DetectChangesVars.valUnwrapper (S slot)) in
  let result :=
    bindRenderText convertCdExpressionToIr boundText compileNode afterProperty in
  knownSecurityContext boundProp = true ->
  boundProp_type boundProp <> Animation ->
  expression ofProperty = Some propertyValue ->
  0 < temporaryCount ofProperty ->
  expression ofText = Some textValue ->
  0 < temporaryCount ofText ->
  exists between after,
    stmts detectChangesRenderPropertiesMethod (snd result)
    = stmts detectChangesRenderPropertiesMethod v
      ++ temporaryDeclaration (S slot) 0
         :: between ++ temporaryDeclaration (S slot) 0 :: after.
Proof.
  cbv zeta; intros Hknown Hkind Hproperty Hcount Htext Hcount'.
  destruct (boundProp_appends_its_block context compileElement isHostProp
              eventListeners boundProp v Hknown)
    as (actions & _ & Hregistered & Hblock).
  specialize (Hblock detectChangesRenderPropertiesMethod (or_introl eq_refl)).
  destruct (boundProp_frame context compileElement isHostProp eventListeners
              boundProp v) as (_ & Hcontext & _).
  cbv zeta in Hcontext.
  cbn [boundPropConversions combine guardedBlocks] in Hblock.
  rewrite (beforeConversion_registered _ _ _ _ _ _ Hknown Hkind) in Hblock.
  rewrite Hproperty in Hblock.
  assert (Hmethod : guardMethodOf boundProp = detectChangesRenderPropertiesMethod).
  { unfold guardMethodOf; destruct (boundProp_type boundProp);
      try reflexivity; contradiction Hkind; reflexivity. }
  rewrite Hmethod in Hblock; cbn [MethodRef_eqb] in Hblock.
  rewrite bindRenderText_spec; cbv zeta; rewrite bind_spec; cbv zeta; cbn [snd].
  rewrite Hregistered, Hcontext, Htext.
  stmts_simpl; rewrite Hblock.
  destruct (evaluationStmts_first_temporary
              (createCurrValueExpr (length (bindings v)))
              (S (length (bindings v))) _ propertyValue Hcount) as [rest Hrest].
  destruct (evaluationStmts_first_temporary
              (createCurrValueExpr (S (length (bindings v))))
              (S (length (bindings v))) _ textValue Hcount') as [rest' Hrest'].
  rewrite Hrest, Hrest'.
  eexists (rest ++ [_]), (rest' ++ [_]).
  rewrite app_nil_r, <- !app_assoc; simpl; rewrite <- ?app_assoc; reflexivity.
Qed.

End Properties.

(** ** The converter seen from the binders *)

Section Converters.

Context {AST : Type}
        (convertCdExpressionToIr otherConverter :
           @NameResolver AST -> Expression -> AST -> ReadVarExpr -> nat ->
           Conversion).

Lemma forEach_ext {A : Type} (f g : A -> @Gen AST unit) (l : list A) :
  (forall a v, f a v = g a v) -> forall v, forEach f l v = forEach g l v.
Proof.
  intros Hfg; induction l as [| a l IH]; intros v; simpl; [reflexivity |].
  unfold andThen; rewrite Hfg.
  destruct (g a v) as [[[] | message] w]; [apply IH | reflexivity].
Qed.

(** X12. [bindAndWriteToRenderer] asks the converter with one resolver only,
    the one without locals for host properties and the view otherwise, with
    the context it was given and with the unwrapper variable: two converters
    that agree there, whatever the view, give the same result. *)
Theorem X12_converter_asked_with_the_resolver_of_the_kind
        (boundProps : list BoundElementPropertyAst) (context : Expression)
        (compileElement : CompileElement) (isHostProp : bool)
        (eventListeners : list CompileEventListener) (v : @CompileView AST) :
  (forall view ast bindingIndex,
      convertCdExpressionToIr
        ((if isHostProp then NoLocalsNameResolver else ViewNameResolver) view)
        context ast DetectChangesVars.valUnwrapper bindingIndex
      = otherConverter
          ((if isHostProp then NoLocalsNameResolver else ViewNameResolver) view)
          context ast DetectChangesVars.valUnwrapper bindingIndex) ->
  bindAndWriteToRenderer convertCdExpressionToIr boundProps context
                         compileElement isHostProp eventListeners v
  = bindAndWriteToRenderer otherConverter boundProps context compileElement
                           isHostProp eventListeners v.
Proof.
  intros Hagree; unfold bindAndWriteToRenderer.
  apply forEach_ext; intros boundProp w.
  unfold bindAndWriteToRenderer_boundProp, andThen, bindingsLength, pushBinding,
    resetDebugInfo, lift, readView, addStmts, ret; cbv zeta.
  destruct (sanitizedValue boundProp (createBindFieldExpr _)); [| reflexivity].
  destruct (sanitizedValue boundProp (createCurrValueExpr _)); [| reflexivity].
  destruct (boundProp_type boundProp);
    rewrite !bind_spec; cbv zeta; rewrite Hagree; reflexivity.
Qed.

End Converters.

(** ** The properties on the small template *)

(** The hypotheses of C1 hold for the text [items | async] in the empty view:
    the resolver pushes the field of the pipe and its creation, and [bind]
    adds the field [_expr_0], its initialization and its guard after
    them. *)
Lemma C1_bind_present_witness :
  let result :=
    bind sampleConvert (createCurrValueExpr 0) (createBindFieldExpr 0)
         "items | async" (ReadProp ThisExpr "context") ViewNameResolver
         [ExpressionStatement
            (InvokeMethodExpr (ReadProp ThisExpr "renderer") "setText"
               [ReadProp ThisExpr "_text_1"; ReadVar "currVal_0"])]
         detectChangesRenderPropertiesMethod 0 sampleView in
  fields (snd result)
  = [mkClassField "_pipe_async_0" []; mkClassField "_expr_0" [Private]]
  /\ stmts createMethod (snd result)
     = [ExpressionStatement
          (WritePropExpr ThisExpr "_pipe_async_0"
                         (InvokeFunctionExpr (ReadVar "AsyncPipe") []));
        ExpressionStatement
          (WritePropExpr ThisExpr "_expr_0"
                         (ExternalExpr Identifiers.UNINITIALIZED))]
  /\ stmts detectChangesRenderPropertiesMethod (snd result)
     = [ExpressionStatement
          (InvokeMethodExpr (ReadVar "valUnwrapper") "reset" []);
        DeclareVarStmt "currVal_0"
          (InvokeMethodExpr (ReadVar "valUnwrapper") "unwrap"
             [InvokeMethodExpr (ReadProp ThisExpr "_pipe_async_0") "transform"
                [ReadProp (ReadProp ThisExpr "context") "items"]])
          [Final];
        IfStmt (BinaryOperatorExpr Or
                  (ReadProp (ReadVar "valUnwrapper") "hasWrappedValue")
                  (InvokeFunctionExpr (ExternalExpr Identifiers.checkBinding)
                     [ReadVar "throwOnChange"; ReadProp ThisExpr "_expr_0";
                      ReadVar "currVal_0"]))
               [ExpressionStatement
                  (InvokeMethodExpr (ReadProp ThisExpr "renderer") "setText"
                     [ReadProp ThisExpr "_text_1"; ReadVar "currVal_0"]);
                ExpressionStatement
                  (WritePropExpr ThisExpr "_expr_0" (ReadVar "currVal_0"))]
               []].
Proof.
  pose proof (C1_bind_present_one_field_one_init_one_guard
                sampleConvert (createCurrValueExpr 0) (createBindFieldExpr 0)
                "items | async" (ReadProp ThisExpr "context") ViewNameResolver
                [ExpressionStatement
                   (InvokeMethodExpr (ReadProp ThisExpr "renderer") "setText"
                      [ReadProp ThisExpr "_text_1"; ReadVar "currVal_0"])]
                detectChangesRenderPropertiesMethod 0 sampleView
                (InvokeMethodExpr (ReadVar "valUnwrapper") "unwrap"
                   [InvokeMethodExpr (ReadProp ThisExpr "_pipe_async_0")
                      "transform"
                      [ReadProp (ReadProp ThisExpr "context") "items"]])) as H.
  cbv zeta in H.
  assert (Hmethod : detectChangesRenderPropertiesMethod <> createMethod)
    by discriminate.
  specialize (H eq_refl Hmethod).
  destruct H as (_ & Hfields & Hcreate & Hguard & _).
  cbv zeta; split; [exact Hfields | split; [exact Hcreate | exact Hguard]].
Defined.

(** The hypothesis of C3 holds for the empty expression. *)
Lemma C3_bind_absent_witness :
  bind sampleConvert (createCurrValueExpr 0) (createBindFieldExpr 0) ""
       (ReadProp ThisExpr "context") ViewNameResolver [] 
       detectChangesRenderPropertiesMethod 0 sampleView
  = (Normal tt, sampleView).
Proof.
  apply (C3_bind_absent_emits_nothing sampleConvert); reflexivity.
Defined.

(** C4 on a [URL] binding and on a classification that is no member. *)
Lemma C4_sanitizedValue_witness :
  sanitizedValue (sampleBoundProp "href" Property SecurityContext.URL "link" None)
                 (ReadVar "currVal_0")
  = Normal (InvokeMethodExpr
              (ReadProp (ReadProp ThisExpr "viewUtils") "sanitizer") "sanitize"
              [ReadProp (ExternalExpr Identifiers.SecurityContext) "URL";
               ReadVar "currVal_0"])
  /\ sanitizedValue (sampleBoundProp "href" Property 9 "link" None)
                    (ReadVar "currVal_0")
     = Throw "internal error, unexpected SecurityContext 9.".
Proof.
  split.
  - apply (C4_sanitizedValue_by_classification
             (sampleBoundProp "href" Property SecurityContext.URL "link" None)
             (ReadVar "currVal_0")); reflexivity.
  - destruct (C4_sanitizedValue_by_classification
                (sampleBoundProp "href" Property 9 "link" None)
                (ReadVar "currVal_0"))
      as (_ & _ & _ & _ & _ & _ & Hother).
    assert (Hmember : forall z : Z, (z <=? 5)%Z = true -> 9%Z <> z).
    { intros z Hz Heq; rewrite <- Heq in Hz; discriminate Hz. }
    specialize (Hother (Hmember SecurityContext.NONE eq_refl)
                       (Hmember SecurityContext.HTML eq_refl)
                       (Hmember SecurityContext.STYLE eq_refl)
                       (Hmember SecurityContext.SCRIPT eq_refl)
                       (Hmember SecurityContext.URL eq_refl)
                       (Hmember SecurityContext.RESOURCE_URL eq_refl)).
    destruct Hother as (message & Hthrows & Hmessage & _).
    rewrite Hthrows, Hmessage; reflexivity.
Defined.

(** C5 on a push component and on a directive with the default strategy, both
    without inputs. *)
Lemma C5_detectChangesInternal_witness :
  let call :=
    InvokeMethodExpr (ReadProp ThisExpr "_Cmp_3_4") "detectChangesInternal"
      [ThisExpr; ReadProp ThisExpr "_el_3"; ReadVar "throwOnChange"] in
  stmts detectChangesInInputsMethod
        (snd (bindDirectiveInputs sampleConvert sampleIsDefault
                (mkDirectiveAst (mkDirective true SampleOnPush) [] [])
                (ReadProp ThisExpr "_Cmp_3_4") sampleElement sampleView))
  = [IfStmt call
       [ExpressionStatement
          (InvokeMethodExpr
             (ReadProp (ReadProp ThisExpr "_appEl_3") "componentView")
             "markAsCheckOnce" [])]
       []]
  /\ stmts detectChangesInInputsMethod
           (snd (bindDirectiveInputs sampleConvert sampleIsDefault
                   (mkDirectiveAst (mkDirective true SampleDefault) [] [])
                   (ReadProp ThisExpr "_Cmp_3_4") sampleElement sampleView))
     = [ExpressionStatement call].
Proof.
  cbv zeta; split.
  - destruct (C5_detectChangesInternal_plain_or_guarded
                sampleConvert sampleIsDefault
                (mkDirectiveAst (mkDirective true SampleOnPush) [] [])
                (ReadProp ThisExpr "_Cmp_3_4") sampleElement sampleView)
      as (final & Hresult & Hpush & _).
    rewrite Hresult, Hpush; reflexivity.
  - destruct (C5_detectChangesInternal_plain_or_guarded
                sampleConvert sampleIsDefault
                (mkDirectiveAst (mkDirective true SampleDefault) [] [])
                (ReadProp ThisExpr "_Cmp_3_4") sampleElement sampleView)
      as (final & Hresult & _ & Hplain).
    rewrite Hresult, Hplain; [reflexivity | right; reflexivity].
Defined.

(** C9 on the input [items] bound to [items | async]: one call of
    [check_items] with the force-update flag; the only field and the only
    statement of the create method are those of the pipe, pushed by the
    resolver. *)
Lemma C9_directive_input_witness :
  let result :=
    bindDirectiveInputs_input sampleConvert (ReadProp ThisExpr "_Cmp_3_4")
                              sampleElement
                              (mkBoundInput "items" "items" "items | async")
                              sampleView in
  stmts detectChangesInInputsMethod (snd result)
  = [ExpressionStatement
       (InvokeMethodExpr (ReadVar "valUnwrapper") "reset" []);
     DeclareVarStmt "currVal_0"
       (InvokeMethodExpr (ReadVar "valUnwrapper") "unwrap"
          [InvokeMethodExpr (ReadProp ThisExpr "_pipe_async_0") "transform"
             [ReadProp (ReadProp ThisExpr "context") "items"]])
       [Final];
     ExpressionStatement
       (InvokeMethodExpr (ReadProp ThisExpr "_Cmp_3_4") "check_items"
          [ReadVar "currVal_0"; ReadVar "throwOnChange";
           ReadProp (ReadVar "valUnwrapper") "hasWrappedValue"])]
  /\ fields (snd result) = [mkClassField "_pipe_async_0" []]
  /\ stmts createMethod (snd result)
     = [ExpressionStatement
          (WritePropExpr ThisExpr "_pipe_async_0"
                         (InvokeFunctionExpr (ReadVar "AsyncPipe") []))].
Proof.
  destruct (C9_directive_input_calls_check_without_field_or_guard
              sampleConvert (ReadProp ThisExpr "_Cmp_3_4") sampleElement
              (mkBoundInput "items" "items" "items | async") sampleView)
    as (_ & Hstmts & _ & Hfields & Hcreate & _).
  cbv zeta; split; [exact Hstmts | split; [exact Hfields | exact Hcreate]].
Defined.

(** C7 on the style [width] bound to [w] with the unit [px]. *)
Lemma C7_style_witness :
  stmts detectChangesRenderPropertiesMethod
        (snd (bindAndWriteToRenderer_boundProp sampleConvert
                (ReadProp ThisExpr "context") sampleElement false []
                (sampleBoundProp "width" Style SecurityContext.NONE "w" (Some "px"))
                sampleView))
  = [DeclareVarStmt "currVal_0" (ReadProp (ReadProp ThisExpr "context") "w")
                    [Final];
     IfStmt (InvokeFunctionExpr (ExternalExpr Identifiers.checkBinding)
               [ReadVar "throwOnChange"; ReadProp ThisExpr "_expr_0";
                ReadVar "currVal_0"])
            [ExpressionStatement
               (InvokeMethodExpr (ReadProp ThisExpr "renderer") "setElementStyle"
                  [ReadProp ThisExpr "_el_3"; LiteralExpr (LitString "width");
                   ConditionalExpr
                     (BinaryOperatorExpr Equals (ReadVar "currVal_0")
                                         (LiteralExpr LitNull))
                     (LiteralExpr LitNull)
                     (BinaryOperatorExpr Plus
                        (InvokeMethodExpr (ReadVar "currVal_0") "toString" [])
                        (LiteralExpr (LitString "px")))]);
             ExpressionStatement
               (WritePropExpr ThisExpr "_expr_0" (ReadVar "currVal_0"))]
            []].
Proof.
  pose proof (C7_attribute_and_style_values
                sampleConvert (ReadProp ThisExpr "context") sampleElement false []
                (sampleBoundProp "width" Style SecurityContext.NONE "w" (Some "px"))
                sampleView (ReadProp ThisExpr "_expr_0") (ReadVar "currVal_0")
                (ReadProp (ReadProp ThisExpr "context") "w")) as H.
  cbv zeta in H; specialize (H eq_refl eq_refl eq_refl).
  destruct H as [_ Hstyle]; exact (Hstyle eq_refl).
Defined.

(** C6 on the animation [fade] bound to [state], with one listener of its
    name: the update path normalizes both values, the detach path passes the
    cached field and the empty state. *)
Lemma C6_animation_witness :
  let result :=
    bindAndWriteToRenderer_boundProp sampleConvert (ReadProp ThisExpr "context")
      sampleElement false [sampleListener]
      (sampleBoundProp "fade" Animation SecurityContext.NONE "state" None)
      sampleView in
  let animationFn :=
    ReadKey (ReadProp (ReadProp ThisExpr "componentType") "animations")
            (LiteralExpr (LitString "fade")) in
  let listened :=
    ExpressionStatement
      (InvokeMethodExpr (ReadVar "animationTransition_fade") "onDone"
                        [ReadProp ThisExpr "_handle_fade_3"]) in
  stmts detachMethod (snd result)
  = [DeclareVarStmt "animationTransition_fade"
       (InvokeFunctionExpr animationFn
          [ThisExpr; ReadProp ThisExpr "_el_3"; ReadProp ThisExpr "_expr_0";
           LiteralExpr (LitString "void")])
       [];
     listened]
  /\ stmts detectChangesRenderPropertiesMethod (snd result) = []
  /\ stmts animationBindingsMethod (snd result)
     = [DeclareVarStmt "currVal_0"
          (ReadProp (ReadProp ThisExpr "context") "state") [Final];
        IfStmt (InvokeFunctionExpr (ExternalExpr Identifiers.checkBinding)
                  [ReadVar "throwOnChange"; ReadProp ThisExpr "_expr_0";
                   ReadVar "currVal_0"])
               [DeclareVarStmt "animationTransition_fade"
                  (InvokeFunctionExpr animationFn
                     [ThisExpr; ReadProp ThisExpr "_el_3";
                      ConditionalExpr
                        (BinaryOperatorExpr Equals (ReadProp ThisExpr "_expr_0")
                           (ExternalExpr Identifiers.UNINITIALIZED))
                        (LiteralExpr (LitString "void"))
                        (ReadProp ThisExpr "_expr_0");
                      ConditionalExpr
                        (BinaryOperatorExpr Equals (ReadVar "currVal_0")
                           (ExternalExpr Identifiers.UNINITIALIZED))
                        (LiteralExpr (LitString "void"))
                        (ReadVar "currVal_0")])
                  [];
                listened;
                ExpressionStatement
                  (WritePropExpr ThisExpr "_expr_0" (ReadVar "currVal_0"))]
               []].
Proof.
  pose proof (C6_animation_transitions
                sampleConvert (ReadProp ThisExpr "context") sampleElement false
                [sampleListener]
                (sampleBoundProp "fade" Animation SecurityContext.NONE "state" None)
                sampleView (ReadProp ThisExpr "_expr_0") (ReadVar "currVal_0"))
    as H.
  cbv zeta in H; specialize (H eq_refl eq_refl eq_refl).
  destruct H as (Hanimation & Hdetach & Hrender).
  cbv zeta; split; [exact Hdetach | split; [exact Hrender | exact Hanimation]].
Defined.

(** C10 on the same animation as a host property of a directive: the
    function is looked up on the component view of the element. *)
Lemma C10_animation_function_witness :
  let result :=
    bindAndWriteToRenderer_boundProp sampleConvert (ReadProp ThisExpr "_Dir_3_4")
      sampleElement true []
      (sampleBoundProp "fade" Animation SecurityContext.NONE "state" None)
      sampleView in
  exists updateArgs detachArgs updateRest detachRest,
    stmts animationBindingsMethod (snd result)
    = [DeclareVarStmt "currVal_0" (ReadProp (ReadProp ThisExpr "_Dir_3_4") "state")
                      [Final];
       IfStmt (InvokeFunctionExpr (ExternalExpr Identifiers.checkBinding)
                 [ReadVar "throwOnChange"; ReadProp ThisExpr "_expr_0";
                  ReadVar "currVal_0"])
              (DeclareVarStmt "animationTransition_fade"
                 (InvokeFunctionExpr
                    (ReadKey
                       (ReadProp
                          (ReadProp
                             (ReadProp (ReadProp ThisExpr "_appEl_3")
                                       "componentView")
                             "componentType")
                          "animations")
                       (LiteralExpr (LitString "fade")))
                    updateArgs)
                 []
               :: updateRest
                  ++ [ExpressionStatement
                        (WritePropExpr ThisExpr "_expr_0" (ReadVar "currVal_0"))])
              []]
    /\ stmts detachMethod (snd result)
       = DeclareVarStmt "animationTransition_fade"
           (InvokeFunctionExpr
              (ReadKey
                 (ReadProp
                    (ReadProp
                       (ReadProp (ReadProp ThisExpr "_appEl_3") "componentView")
                       "componentType")
                    "animations")
                 (LiteralExpr (LitString "fade")))
              detachArgs)
           []
         :: detachRest.
Proof.
  pose proof (C10_animation_function_view
                sampleConvert (ReadProp ThisExpr "_Dir_3_4") sampleElement true []
                (sampleBoundProp "fade" Animation SecurityContext.NONE "state" None)
                sampleView (ReadProp ThisExpr "_expr_0") (ReadVar "currVal_0")
                (ReadProp (ReadProp ThisExpr "_Dir_3_4") "state")) as H.
  cbv zeta in H; specialize (H eq_refl eq_refl eq_refl eq_refl).
  destruct H as [Hhost _].
  destruct (Hhost eq_refl)
    as (updateArgs & detachArgs & updateRest & detachRest & Hupdate & Hdetach).
  exists updateArgs, detachArgs, updateRest, detachRest.
  split; [exact Hupdate | exact Hdetach].
Defined.

(** C8 on a text with a safe navigation on a call, and on a property
    followed by a style on the same element. *)
Lemma C8_statement_order_witness :
  let boundProps :=
    [sampleBoundProp "title" Property SecurityContext.NONE "getUser()?.name" None;
     sampleBoundProp "width" Style SecurityContext.NONE "w" (Some "px")] in
  let one :=
    bind sampleConvert (createCurrValueExpr 0) (createBindFieldExpr 0)
         "getUser()?.name" (ReadProp ThisExpr "context") ViewNameResolver []
         detectChangesRenderPropertiesMethod 0 sampleView in
  let all :=
    bindAndWriteToRenderer sampleConvert boundProps (ReadProp ThisExpr "context")
                           sampleElement false [] sampleView in
  stmts detectChangesRenderPropertiesMethod (snd one)
  = [DeclareVarStmt "tmp_0_0" (LiteralExpr LitNull) [];
     DeclareVarStmt "currVal_0"
       (ConditionalExpr
          (BinaryOperatorExpr Equals
             (WriteVarExpr "tmp_0_0"
                (InvokeMethodExpr (ReadProp ThisExpr "context") "getUser" []))
             (LiteralExpr LitNull))
          (LiteralExpr LitNull) (ReadProp (ReadVar "tmp_0_0") "name"))
       [Final];
     IfStmt (InvokeFunctionExpr (ExternalExpr Identifiers.checkBinding)
               [ReadVar "throwOnChange"; ReadProp ThisExpr "_expr_0";
                ReadVar "currVal_0"])
            [ExpressionStatement
               (WritePropExpr ThisExpr "_expr_0" (ReadVar "currVal_0"))]
            []]
  /\ exists actionsOf : list (list Statement),
      length actionsOf = 2
      /\ fst all = Normal tt
      /\ forall guarded,
          guarded = detectChangesRenderPropertiesMethod
          \/ guarded = animationBindingsMethod ->
          stmts guarded (snd all)
          = guardedBlocks guarded 0
              (combine (combine boundProps actionsOf)
                       (boundPropConversions sampleConvert
                          (ReadProp ThisExpr "context") sampleElement false []
                          boundProps sampleView)).
Proof.
  pose proof (C8_statement_order
                sampleConvert (createCurrValueExpr 0) (createBindFieldExpr 0)
                "getUser()?.name" (ReadProp ThisExpr "context") ViewNameResolver []
                detectChangesRenderPropertiesMethod 0 sampleView
                (ConditionalExpr
                   (BinaryOperatorExpr Equals
                      (WriteVarExpr "tmp_0_0"
                         (InvokeMethodExpr (ReadProp ThisExpr "context")
                                           "getUser" []))
                      (LiteralExpr LitNull))
                   (LiteralExpr LitNull) (ReadProp (ReadVar "tmp_0_0") "name"))
                sampleElement false []
                [sampleBoundProp "title" Property SecurityContext.NONE
                                 "getUser()?.name" None;
                 sampleBoundProp "width" Style SecurityContext.NONE "w"
                                 (Some "px")]) as H.
  cbv zeta in H.
  assert (Hmethod : detectChangesRenderPropertiesMethod <> createMethod)
    by discriminate.
  specialize (H eq_refl Hmethod eq_refl).
  destruct H as [Hone (actionsOf & Hlength & Hnormal & Hblocks)].
  cbv zeta; split; [exact Hone |].
  exists actionsOf; split; [exact Hlength |]; split; [exact Hnormal |].
  intros guarded Hguarded; rewrite (Hblocks guarded Hguarded).
  destruct Hguarded as [-> | ->]; reflexivity.
Defined.

(** ** The index handed to the evaluation of a render property *)

(** C2 at a property whose expression needs a temporary, registered first in
    an empty view: the slot is 0, and the cached field and the fresh value
    are named after it, but the temporary is named after 1, since
    [bindAndWriteToRenderer] hands [view.bindings.length] to [bind] after the
    registration.  [bindRenderText] on the same expression and view, which
    hands the slot on, names the temporary after 0. *)
Theorem C2_render_property_temporaries_named_after_next_slot :
  let property :=
    bindRenderInputs sampleConvert
      [sampleBoundProp "title" Property SecurityContext.NONE "getUser()?.name" None]
      sampleElement [] sampleView in
  let text :=
    bindRenderText sampleConvert (mkBoundText "getUser()?.name")
                   (mkNode 1 (ReadProp ThisExpr "_text_1")) sampleView in
  let evaluated (temporary : string) :=
    ConditionalExpr
      (BinaryOperatorExpr Equals
         (WriteVarExpr temporary (InvokeMethodExpr (ReadProp ThisExpr "context") "getUser" []))
         (LiteralExpr LitNull))
      (LiteralExpr LitNull) (ReadProp (ReadVar temporary) "name") in
  let guard (actions : list Statement) :=
    IfStmt (InvokeFunctionExpr (ExternalExpr Identifiers.checkBinding)
              [ReadVar "throwOnChange"; ReadProp ThisExpr "_expr_0";
               ReadVar "currVal_0"])
           (actions ++
            [ExpressionStatement
               (WritePropExpr ThisExpr "_expr_0" (ReadVar "currVal_0"))])
           [] in
  length (bindings sampleView) = 0
  /\ fields (snd property) = [mkClassField "_expr_0" [Private]]
  /\ stmts detectChangesRenderPropertiesMethod (snd property)
     = [DeclareVarStmt "tmp_1_0" (LiteralExpr LitNull) [];
        DeclareVarStmt "currVal_0" (evaluated "tmp_1_0") [Final];
        guard [ExpressionStatement
                 (InvokeMethodExpr (ReadProp ThisExpr "renderer")
                    "setElementProperty"
                    [ReadProp ThisExpr "_el_3"; LiteralExpr (LitString "title");
                     ReadVar "currVal_0"])]]
  /\ stmts detectChangesRenderPropertiesMethod (snd text)
     = [DeclareVarStmt "tmp_0_0" (LiteralExpr LitNull) [];
        DeclareVarStmt "currVal_0" (evaluated "tmp_0_0") [Final];
        guard [ExpressionStatement
                 (InvokeMethodExpr (ReadProp ThisExpr "renderer") "setText"
                    [ReadProp ThisExpr "_text_1"; ReadVar "currVal_0"])]].
Proof.
  cbv zeta; repeat split.
Qed.

(** ** The further properties on the small template *)

(** X1 on the slots 0 and 1. *)
Lemma X1_slot_names_witness :
  prop_name (createBindFieldExpr 0) <> prop_name (createBindFieldExpr 1)
  /\ var_name (createCurrValueExpr 0) <> var_name (createCurrValueExpr 1).
Proof.
  apply X1_slot_names_distinct; discriminate.
Defined.

(** X3 on a property, then one with the classification 9, then a style: the
    run throws, the first property is bound, the second only registered, the
    style not looked at. *)
Lemma X3_stops_at_unknown_witness :
  let result :=
    bindAndWriteToRenderer sampleConvert
      ([sampleBoundProp "title" Property SecurityContext.NONE "name" None]
       ++ sampleBoundProp "href" Property 9 "link" None
          :: [sampleBoundProp "width" Style SecurityContext.NONE "w" (Some "px")])
      (ReadProp ThisExpr "context") sampleElement false [] sampleView in
  fst result = Throw "internal error, unexpected SecurityContext 9."
  /\ length (bindings (snd result)) = 2
  /\ fields (snd result) = [mkClassField "_expr_0" [Private]]
  /\ length (stmts detectChangesRenderPropertiesMethod (snd result)) = 2.
Proof.
  pose proof (X3_bindAndWriteToRenderer_stops_at_unknown_classification
                sampleConvert (ReadProp ThisExpr "context") sampleElement false []
                [sampleBoundProp "title" Property SecurityContext.NONE "name" None]
                (sampleBoundProp "href" Property 9 "link" None)
                [sampleBoundProp "width" Style SecurityContext.NONE "w"
                                 (Some "px")]
                sampleView eq_refl eq_refl) as H.
  cbv zeta; rewrite H; repeat split.
Defined.

(** X4 on a run over a property and a style that returns: the
    classification of the style is a member. *)
Lemma X4_returns_only_if_known_witness :
  fst (bindAndWriteToRenderer sampleConvert
         [sampleBoundProp "title" Property SecurityContext.NONE "name" None;
          sampleBoundProp "width" Style SecurityContext.STYLE "w" (Some "px")]
         (ReadProp ThisExpr "context") sampleElement false [] sampleView)
  = Normal tt
  /\ In SecurityContext.STYLE
        [SecurityContext.NONE; SecurityContext.HTML; SecurityContext.STYLE;
         SecurityContext.SCRIPT; SecurityContext.URL;
         SecurityContext.RESOURCE_URL].
Proof.
  split; [reflexivity |].
  apply (X4_bindAndWriteToRenderer_returns_only_if_all_known
           sampleConvert (ReadProp ThisExpr "context") sampleElement false []
           [sampleBoundProp "title" Property SecurityContext.NONE "name" None;
            sampleBoundProp "width" Style SecurityContext.STYLE "w" (Some "px")]
           sampleView
           (sampleBoundProp "width" Style SecurityContext.STYLE "w" (Some "px"))).
  - reflexivity.
  - right; left; reflexivity.
Defined.

(** X5 on the property [title] in a view that logs binding updates. *)
Lemma X5_property_logged_witness :
  stmts detectChangesRenderPropertiesMethod
        (snd (bindAndWriteToRenderer_boundProp sampleConvert
                (ReadProp ThisExpr "context") sampleElement false []
                (sampleBoundProp "title" Property SecurityContext.NONE "name" None)
                sampleLoggingView))
  = [DeclareVarStmt "currVal_0" (ReadProp (ReadProp ThisExpr "context") "name")
                    [Final];
     IfStmt (InvokeFunctionExpr (ExternalExpr Identifiers.checkBinding)
               [ReadVar "throwOnChange"; ReadProp ThisExpr "_expr_0";
                ReadVar "currVal_0"])
            [ExpressionStatement
               (InvokeFunctionExpr (ExternalExpr Identifiers.setBindingDebugInfo)
                  [ReadProp ThisExpr "renderer"; ReadProp ThisExpr "_el_3";
                   LiteralExpr (LitString "title"); ReadVar "currVal_0"]);
             ExpressionStatement
               (InvokeMethodExpr (ReadProp ThisExpr "renderer")
                  "setElementProperty"
                  [ReadProp ThisExpr "_el_3"; LiteralExpr (LitString "title");
                   ReadVar "currVal_0"]);
             ExpressionStatement
               (WritePropExpr ThisExpr "_expr_0" (ReadVar "currVal_0"))]
            []].
Proof.
  pose proof (X5_property_and_class_updates
                sampleConvert (ReadProp ThisExpr "context") sampleElement false []
                (sampleBoundProp "title" Property SecurityContext.NONE "name" None)
                sampleLoggingView (ReadProp ThisExpr "_expr_0")
                (ReadVar "currVal_0")
                (ReadProp (ReadProp ThisExpr "context") "name")) as H.
  cbv zeta in H; specialize (H eq_refl eq_refl eq_refl).
  destruct H as [Hproperty _]; exact (Hproperty eq_refl).
Defined.

(** X7 on a property with a pipe, a class with an empty expression and a
    style: the slot 0 gets the field of the pipe and then its cached field,
    the slot 1 nothing, the slot 2 its cached field. *)
Lemma X7_fields_witness :
  let result :=
    bindAndWriteToRenderer sampleConvert
      [sampleBoundProp "title" Property SecurityContext.NONE "items | async" None;
       sampleBoundProp "active" Class SecurityContext.NONE "" None;
       sampleBoundProp "width" Style SecurityContext.NONE "w" (Some "px")]
      (ReadProp ThisExpr "context") sampleElement false [] sampleView in
  fields (snd result)
  = [mkClassField "_pipe_async_0" []; mkClassField "_expr_0" [Private];
     mkClassField "_expr_2" [Private]]
  /\ stmts createMethod (snd result)
     = [ExpressionStatement
          (WritePropExpr ThisExpr "_pipe_async_0"
                         (InvokeFunctionExpr (ReadVar "AsyncPipe") []));
        ExpressionStatement
          (WritePropExpr ThisExpr "_expr_0"
                         (ExternalExpr Identifiers.UNINITIALIZED));
        ExpressionStatement
          (WritePropExpr ThisExpr "_expr_2"
                         (ExternalExpr Identifiers.UNINITIALIZED))]
  /\ NoDup ["_expr_0"; "_expr_2"].
Proof.
  pose proof (X7_fields_and_their_initializations
                sampleConvert (ReadProp ThisExpr "context") sampleElement false []
                [sampleBoundProp "title" Property SecurityContext.NONE
                                 "items | async" None;
                 sampleBoundProp "active" Class SecurityContext.NONE "" None;
                 sampleBoundProp "width" Style SecurityContext.NONE "w"
                                 (Some "px")]
                sampleView) as H.
  cbv zeta in H; specialize (H eq_refl).
  destruct H as (Hfields & Hcreate & Hnames).
  cbv zeta; split; [exact Hfields | split; [exact Hcreate | exact Hnames]].
Defined.

(** X11 on the property [title] and a text, both bound to a safe navigation,
    in the empty view: [tmp_1_0] is declared twice. *)
Lemma X11_same_temporary_witness :
  exists between after,
    stmts detectChangesRenderPropertiesMethod
          (snd (bindRenderText sampleConvert (mkBoundText "getUser()?.name")
                  (mkNode 1 (ReadProp ThisExpr "_text_1"))
                  (snd (bindAndWriteToRenderer_boundProp sampleConvert
                          (ReadProp ThisExpr "context") sampleElement false []
                          (sampleBoundProp "title" Property SecurityContext.NONE
                                           "getUser()?.name" None)
                          sampleView))))
    = DeclareVarStmt "tmp_1_0" (LiteralExpr LitNull) []
      :: between ++ DeclareVarStmt "tmp_1_0" (LiteralExpr LitNull) [] :: after.
Proof.
  pose proof (X11_property_then_text_declare_the_same_temporary
                sampleConvert (ReadProp ThisExpr "context") sampleElement false []
                (sampleBoundProp "title" Property SecurityContext.NONE
                                 "getUser()?.name" None)
                (mkBoundText "getUser()?.name")
                (mkNode 1 (ReadProp ThisExpr "_text_1")) sampleView
                (ConditionalExpr
                   (BinaryOperatorExpr Equals
                      (WriteVarExpr "tmp_1_0"
                         (InvokeMethodExpr (ReadProp ThisExpr "context") "getUser" []))
                      (LiteralExpr LitNull))
                   (LiteralExpr LitNull) (ReadProp (ReadVar "tmp_1_0") "name"))
                (ConditionalExpr
                   (BinaryOperatorExpr Equals
                      (WriteVarExpr "tmp_1_0"
                         (InvokeMethodExpr (ReadProp ThisExpr "context") "getUser" []))
                      (LiteralExpr LitNull))
                   (LiteralExpr LitNull) (ReadProp (ReadVar "tmp_1_0") "name")))
    as H.
  cbv zeta in H.
  assert (Hkind : Property <> Animation) by discriminate.
  specialize (H eq_refl Hkind eq_refl (Nat.lt_0_1) eq_refl (Nat.lt_0_1)).
  destruct H as (between & after & H).
  exists between, after; exact H.
Defined.

(** X12 on a host property: a converter that answers nothing to the view
    resolver gives the result of the sample converter. *)
Lemma X12_converter_resolver_witness :
  bindAndWriteToRenderer sampleConvert
    [sampleBoundProp "title" Property SecurityContext.NONE "name" None]
    (ReadProp ThisExpr "_Dir_3_4") sampleElement true [] sampleView
  = bindAndWriteToRenderer sampleConvertWithoutLocals
      [sampleBoundProp "title" Property SecurityContext.NONE "name" None]
      (ReadProp ThisExpr "_Dir_3_4") sampleElement true [] sampleView.
Proof.
  apply X12_converter_asked_with_the_resolver_of_the_kind.
  intros view ast bindingIndex; reflexivity.
Defined.
